(** * Storj web-core: the HTTP node over CloudManager

    A shallow embedding of [index.py] and [settings.py].  The request
    handlers are written in a small state-and-exception monad over the
    world a request can touch: the per-context object [g], the file system,
    the state behind the cloud manager and a log of the calls made to the
    collaborators.  The collaborators that are imported from other packages
    ([cloudmanager], [file_encryptor], [metachains_dtc], [werkzeug]) are
    parameters of the section. *)

From stdpp Require Import gmap strings list fin_maps sorting.
From Stdlib Require Import ZArith NArith Lia Ascii.

Set Warnings "-register-all".
Open Scope string_scope.

(** ** Python values, exceptions, JSON *)

Inductive pyval :=
| PyNone
| PyBool (b : bool)
| PyInt (z : Z)
| PyStr (s : string)
| PyList (l : list pyval)
| PyDict (d : list (string * pyval)).

(** [not v] is [negb (truthy v)]. *)
Definition truthy (v : pyval) : bool :=
  match v with
  | PyNone => false
  | PyBool b => b
  | PyInt z => negb (z =? 0)%Z
  | PyStr s => negb (String.eqb s "")
  | PyList l => match l with [] => false | _ => true end
  | PyDict d => match d with [] => false | _ => true end
  end.

Inductive json :=
| JNull
| JBool (b : bool)
| JNum (z : Z)
| JStr (s : string)
| JArr (l : list json)
| JObj (d : list (string * json)).

Fixpoint to_json (v : pyval) : json :=
  match v with
  | PyNone => JNull
  | PyBool b => JBool b
  | PyInt z => JNum z
  | PyStr s => JStr s
  | PyList l => JArr (List.map to_json l)
  | PyDict d => JObj (List.map (fun kv => (fst kv, to_json (snd kv))) d)
  end.

(** [jsonify(k1=v1, ...)] and [jsonify({...})]. *)
Definition jsonify (d : list (string * pyval)) : json := to_json (PyDict d).

Inductive exn :=
| AttributeError (obj attr : string)
| BadRequestKeyError (key : string)
| IOError (path : string)
| OSError (path : string)
| ExternalError (msg : string).

Inductive result (A : Type) :=
| Ok (a : A)
| Raise (e : exn).
Arguments Ok {A} a.
Arguments Raise {A} e.

(** ** settings.py *)

Module settings.

Definition PROJECT_ROOT : string := ".".
Definition DATABASE : string := PROJECT_ROOT +:+ "/database/files.db".
Definition STORAGE_PATH : string := PROJECT_ROOT +:+ "/uploads".
Definition STORAGE_SIZE : Z := 20 * (2 ^ 20).

Definition DATACOIN_URL : string := "http://127.0.0.1:11777".
Definition DATACOIN_USERNAME : string := "datacoinrpc".
Definition DATACOIN_PASSWORD : string := "secretish-password".
Definition DATACOIN_START : Z := 220000.

Definition CLOUDSYNC_WAIT : Z := 30.

(** The names the module body binds, before the import at its end. *)
Definition shipped : gmap string pyval :=
  list_to_map
    [ ("PROJECT_ROOT", PyStr PROJECT_ROOT);
      ("DATABASE", PyStr DATABASE);
      ("STORAGE_PATH", PyStr STORAGE_PATH);
      ("STORAGE_SIZE", PyInt STORAGE_SIZE);
      ("DATACOIN_URL", PyStr DATACOIN_URL);
      ("DATACOIN_USERNAME", PyStr DATACOIN_USERNAME);
      ("DATACOIN_PASSWORD", PyStr DATACOIN_PASSWORD);
      ("DATACOIN_START", PyInt DATACOIN_START);
      ("CLOUDSYNC_WAIT", PyInt CLOUDSYNC_WAIT) ].

(** [try: from local_settings import * / except ImportError: pass]:
    when the module exists its names are bound over the shipped ones,
    when it does not the shipped names stand. *)
Definition namespace (local_settings : option (gmap string pyval))
  : gmap string pyval :=
  match local_settings with
  | Some local => local ∪ shipped
  | None => shipped
  end.

End settings.

(** [settings.NAME]: an attribute lookup on the module object. *)
Definition getattr (ns : gmap string pyval) (name : string) : result pyval :=
  match ns !! name with
  | Some v => Ok v
  | None => Raise (AttributeError "settings" name)
  end.

(** ** os.path *)

Definition starts_with_slash (s : string) : bool :=
  match s with
  | String c _ => Ascii.eqb c "/"%char
  | EmptyString => false
  end.

Fixpoint ends_with_slash (s : string) : bool :=
  match s with
  | EmptyString => false
  | String c EmptyString => Ascii.eqb c "/"%char
  | String _ rest => ends_with_slash rest
  end.

(** [os.path.join(a, b)] on POSIX. *)
Definition path_join (a b : string) : string :=
  if starts_with_slash b then b
  else if String.eqb a "" then b
  else if ends_with_slash a then a +:+ b
  else a +:+ "/" +:+ b.

(** [os.path.basename(p)]: what follows the last slash. *)
Fixpoint basename_from (acc : string) (s : string) : string :=
  match s with
  | EmptyString => acc
  | String c rest =>
      if Ascii.eqb c "/"%char then basename_from rest rest
      else basename_from acc rest
  end.
Definition basename (p : string) : string := basename_from p p.

(** ** Requests and responses *)

Abbreviation bytes := (list Byte.byte).

Record request := {
  (** [request.files['file']]: the file's name and content, if the form
      has that field. *)
  req_file : option (string * bytes);
  (** [request.args]: the query string. *)
  req_args : gmap string string
}.

(** What a generator handed to [Response] gives when it is consumed: its
    chunks in order, or the exception its first [next] raises. *)
Inductive stream :=
| Chunks (cs : list bytes)
| Broken (e : exn).

Inductive body :=
| BodyJson (j : json)
| BodyFile (path : string) (content : bytes)
| BodyStream (s : stream).

Record response := {
  status_code : Z;
  resp_body : body;
  mimetype : string;
  headers : list (string * string)
}.

(** [jsonify(...)] alone, [jsonify(...), code] and
    [make_response(jsonify(...), code)]. *)
Definition json_response (j : json) (code : Z) : response :=
  {| status_code := code; resp_body := BodyJson j;
     mimetype := "application/json"; headers := [] |}.

(** [response.headers[k] = v]. *)
Definition set_header (k v : string) (r : response) : response :=
  {| status_code := status_code r; resp_body := resp_body r;
     mimetype := mimetype r; headers := headers r ++ [(k, v)] |}.

(** ** The world a handler runs in, and the monad over it *)

Inductive event :=
| EvSave (path : string)                       (* file.save(path) *)
| EvEncrypt (path : string) (key : option string)
                                               (* encrypt_file_inline(path, key) *)
| EvRemove (path : string)                     (* os.remove(path) *)
| EvCMNew (db storage size : pyval)            (* cloudmanager.CloudManager(...) *)
| EvCMCall (method : string) (arg : option string)
                                               (* cm.method(arg) *)
| EvCoinNew (url user password : pyval)        (* metachains_dtc.Datacoin(...) *)
| EvCoinCall (method : string) (arg : option string).

(** An operation of a collaborator: it may read and write the file system
    and the state that outlives the request, and it may raise. *)
Definition ext (Core A : Type) : Type :=
  gmap string bytes * Core -> result A * (gmap string bytes * Core).

(** The packages [index.py] imports and calls: [cloudmanager],
    [metachains_dtc], [werkzeug] and [file_encryptor]. *)
Record collaborators := {
  (** A [CloudManager] object, a [Datacoin] object, and the state that
      outlives a request: the cloud manager's database, cache and
      providers. *)
  CM : Type;
  Coin : Type;
  Core : Type;

  cm_new : pyval -> pyval -> pyval -> ext Core CM;
  cm_upload : CM -> string -> ext Core pyval;
  cm_warm_up : CM -> string -> ext Core (option string);
  cm_info : CM -> string -> ext Core (option pyval);
  (** The accessors without arguments, by method name. *)
  cm_get : CM -> string -> ext Core pyval;
  cm_close : CM -> ext Core unit;

  coin_new : pyval -> pyval -> pyval -> ext Core Coin;
  coin_balance : Coin -> ext Core pyval;
  coin_address : Coin -> string -> ext Core pyval;

  (** [werkzeug.secure_filename]. *)
  secure_filename : string -> string;

  (** [file_encryptor.convergence]: the key derived from a file's content
      and an optional passphrase, the cipher applied to a whole file, and
      the chunks [decrypt_generator] yields. *)
  key_from_file : bytes -> option string -> string;
  encrypt : string -> bytes -> bytes;
  decrypt_generator_chunks : string -> bytes -> list bytes
}.

Section Node.

Variable X : collaborators.

(** What the module-level name [settings] is bound to. *)
Variable settings_ns : gmap string pyval.

Abbreviation CM := (CM X).
Abbreviation Coin := (Coin X).
Abbreviation Core := (Core X).

Record world := {
  g_cloud_manager : option CM;       (* g._cloud_manager *)
  g_coin : option Coin;              (* g._coin *)
  fs : gmap string bytes;
  core : Core;
  trace : list event
}.

Definition M (A : Type) : Type := world -> result A * world.

Definition ret {A} (a : A) : M A := fun w => (Ok a, w).

Definition bind {A B} (c : M A) (k : A -> M B) : M B :=
  fun w =>
    match c w with
    | (Ok a, w') => k a w'
    | (Raise e, w') => (Raise e, w')
    end.

Definition raise {A} (e : exn) : M A := fun w => (Raise e, w).

(** [try: body finally: final]. *)
Definition try_finally {A} (body : M A) (final : M unit) : M A :=
  fun w =>
    match body w with
    | (r, w') =>
        match final w' with
        | (Ok _, w'') => (r, w'')
        | (Raise e, w'') => (Raise e, w'')
        end
    end.

Definition lift_result {A} (r : result A) : M A := fun w => (r, w).

Definition log (e : event) : M unit :=
  fun w =>
    (Ok tt,
     {| g_cloud_manager := g_cloud_manager w; g_coin := g_coin w;
        fs := fs w; core := core w; trace := trace w ++ [e] |}).

(** Run a collaborator's operation, after logging the call. *)
Definition call {A} (e : event) (op : ext Core A) : M A :=
  fun w =>
    match op (fs w, core w) with
    | (r, (fs', core')) =>
        (r,
         {| g_cloud_manager := g_cloud_manager w; g_coin := g_coin w;
            fs := fs'; core := core'; trace := trace w ++ [e] |})
    end.

Definition set_fs (f : gmap string bytes -> gmap string bytes) : M unit :=
  fun w =>
    (Ok tt,
     {| g_cloud_manager := g_cloud_manager w; g_coin := g_coin w;
        fs := f (fs w); core := core w; trace := trace w |}).

Definition read_file (path : string) : M bytes :=
  fun w =>
    match fs w !! path with
    | Some c => (Ok c, w)
    | None => (Raise (IOError path), w)
    end.

Notation "x <- c1 ;; c2" := (bind c1 (fun x => c2))
  (at level 100, c1 at next level, right associativity).
Notation "c1 ;;; c2" := (bind c1 (fun _ => c2))
  (at level 100, right associativity).

(** *** Module level of index.py *)

Definition TEMP_FOLDER : string := "tmp".


Definition setting (name : string) : M pyval :=
  lift_result (getattr settings_ns name).

Definition make_cloudmanager : M CM :=
  db <- setting "DATABASE_PATH" ;;
  storage <- setting "STORAGE_PATH" ;;
  size <- setting "STORAGE_SIZE" ;;
  call (EvCMNew db storage size) (cm_new X db storage size).

Definition make_coin : M Coin :=
  url <- setting "DATACOIN_URL" ;;
  user <- setting "DATACOIN_USERNAME" ;;
  password <- setting "DATACOIN_PASSWORD" ;;
  call (EvCoinNew url user password) (coin_new X url user password).

Definition set_g_cloud_manager (cm : CM) : M unit :=
  fun w =>
    (Ok tt,
     {| g_cloud_manager := Some cm; g_coin := g_coin w;
        fs := fs w; core := core w; trace := trace w |}).

Definition set_g_coin (c : Coin) : M unit :=
  fun w =>
    (Ok tt,
     {| g_cloud_manager := g_cloud_manager w; g_coin := Some c;
        fs := fs w; core := core w; trace := trace w |}).

Definition get_cloud_manager : M CM :=
  fun w =>
    match g_cloud_manager w with
    | Some cm => ret cm w
    | None => (cm <- make_cloudmanager ;; set_g_cloud_manager cm ;;; ret cm) w
    end.

Definition get_coin : M Coin :=
  fun w =>
    match g_coin w with
    | Some c => ret c w
    | None => (c <- make_coin ;; set_g_coin c ;;; ret c) w
    end.

(** [@app.teardown_appcontext]. *)
Definition close_connection : M unit :=
  cm <- get_cloud_manager ;;
  call (EvCMCall "close" None) (cm_close X cm).

(** *** Library calls on the file system *)

Definition file_save (path : string) (content : bytes) : M unit :=
  log (EvSave path) ;;;
  set_fs (fun f => <[path := content]> f).

Definition os_remove (path : string) : M unit :=
  log (EvRemove path) ;;;
  (_ <- (fun w => match fs w !! path with
                  | Some _ => (Ok tt, w)
                  | None => (Raise (OSError path), w)
                  end) ;;
   set_fs (fun f => delete path f)).

(** [file_encryptor.convergence.encrypt_file_inline(path, passphrase)]:
    derives the key from the file, rewrites the file with its
    encryption and returns the key. *)
Definition encrypt_file_inline (path : string) (passphrase : option string)
  : M string :=
  log (EvEncrypt path passphrase) ;;;
  content <- read_file path ;;
  let key := key_from_file X content passphrase in
  set_fs (fun f => <[path := encrypt X key content]> f) ;;;
  ret key.

(** [file_encryptor.convergence.decrypt_generator(path, key)]: a
    generator; nothing is read before it is consumed. *)
Definition decrypt_generator (path key : string) (f : gmap string bytes)
  : stream :=
  match f !! path with
  | Some content => Chunks (decrypt_generator_chunks X key content)
  | None => Broken (IOError path)
  end.

(** [send_file(path, attachment_filename=name, as_attachment=True)]. *)
Definition send_file (path name : string) : M response :=
  content <- read_file path ;;
  ret {| status_code := 200; resp_body := BodyFile path content;
         mimetype := "";
         headers := [("Content-Disposition",
                      "attachment; filename=" +:+ name)] |}.

(** *** Routes *)

(** The [try] body of [upload] after its first statement. *)
Definition upload_respond (temp_name key : string) : M response :=
  cm <- get_cloud_manager ;;
  result <- call (EvCMCall "upload" (Some temp_name))
                 (cm_upload X cm temp_name) ;;
  let response :=
    if negb (truthy result)
    then json_response (jsonify [("error", PyStr "Upload failed")]) 500
    else json_response
           (jsonify [("filehash", result); ("key", PyStr key)]) 201 in
  ret (set_header "Access-Control-Allow-Credentials" "true"
         (set_header "Access-Control-Allow-Origin"
            "http://localhost:8000" response)).

(** [POST /api/upload] *)
Definition upload (req : request) : M response :=
  file <- match req_file req with
          | Some f => ret f
          | None => raise (BadRequestKeyError "file")
          end ;;
  let filename := secure_filename X (fst file) in
  let temp_name := path_join TEMP_FOLDER filename in
  file_save temp_name (snd file) ;;;
  try_finally
    (key <- encrypt_file_inline temp_name None ;;
     upload_respond temp_name key)
    (os_remove temp_name).

(** The world as the body of the [try] in [upload] leaves it after its
    first statement: the file saved under [temp_name] and encrypted in
    place. *)
Definition staged (temp_name : string) (content : bytes) (w : world)
  : world :=
  snd ((file_save temp_name content ;;;
        encrypt_file_inline temp_name None) w).

(** A computation that only adds to the log of calls. *)
Definition appends {A} (m : M A) : Prop :=
  forall w, exists l, trace (snd (m w)) = (trace w ++ l)%list.

Definition not_found : response :=
  json_response (jsonify [("error", PyStr "File not found")]) 404.

(** [GET /api/download/<filehash>] *)
Definition download (filehash : string) (req : request) : M response :=
  cm <- get_cloud_manager ;;
  let key := req_args req !! "key" in
  full_path <- call (EvCMCall "warm_up" (Some filehash))
                    (cm_warm_up X cm filehash) ;;
  match full_path with
  | None => ret not_found
  | Some full_path =>
      match key with
      | None => send_file full_path (basename full_path)
      | Some key =>
          fun w =>
            (Ok {| status_code := 200;
                   resp_body :=
                     BodyStream (decrypt_generator full_path key (fs w));
                   mimetype := "application/octet-stream";
                   headers := [("Content-Disposition",
                                "attachment;filename="
                                  +:+ basename full_path)] |}, w)
      end
  end.

(** [GET /api/find/<filehash>] *)
Definition find (filehash : string) : M response :=
  cm <- get_cloud_manager ;;
  info <- call (EvCMCall "info" (Some filehash)) (cm_info X cm filehash) ;;
  match info with
  | None => ret not_found
  | Some info => ret (json_response (to_json info) 200)
  end.

Definition cm_read (cm : CM) (method : string) : M pyval :=
  call (EvCMCall method None) (cm_get X cm method).

Definition ok_json (j : json) : response := json_response j 200.

(** [GET /api/status]: the dictionary display evaluates its values in
    the order they are written. *)
Definition status : M response :=
  cm <- get_cloud_manager ;;
  coin <- get_coin ;;
  ti <- cm_read cm "total_incoming" ;;
  to <- cm_read cm "total_outgoing" ;;
  ci <- cm_read cm "current_incoming" ;;
  co <- cm_read cm "current_outgoing" ;;
  li <- setting "TRANSFER_MAX_INCOMING" ;;
  lo <- setting "TRANSFER_MAX_OUTGOING" ;;
  cap <- cm_read cm "capacity" ;;
  used <- cm_read cm "used_space" ;;
  maxf <- setting "STORAGE_FILE" ;;
  cq <- cm_read cm "upload_queue_info" ;;
  bq <- cm_read cm "blockchain_queue_info" ;;
  bal <- call (EvCoinCall "balance" None) (coin_balance X coin) ;;
  addr <- call (EvCoinCall "address" (Some "incoming"))
               (coin_address X coin "incoming") ;;
  ret (ok_json
         (JObj
            [("bandwidth",
              JObj [("total",
                     JObj [("incoming", to_json ti);
                           ("outgoing", to_json to)]);
                    ("current",
                     JObj [("incoming", to_json ci);
                           ("outgoing", to_json co)]);
                    ("limits",
                     JObj [("incoming", to_json li);
                           ("outgoing", to_json lo)])]);
             ("storage",
              JObj [("capacity", to_json cap);
                    ("used", to_json used);
                    ("max_file_size", to_json maxf)]);
             ("sync",
              JObj [("cloud_queue", to_json cq);
                    ("blockchain_queue", to_json bq)]);
             ("datacoin",
              JObj [("balance", to_json bal);
                    ("address", to_json addr)])])).

(** [GET /api/bandwidth/usage] *)
Definition bandwidth_usage : M response :=
  cm <- get_cloud_manager ;;
  ti <- cm_read cm "total_incoming" ;;
  to <- cm_read cm "total_outgoing" ;;
  ci <- cm_read cm "current_incoming" ;;
  co <- cm_read cm "current_outgoing" ;;
  ret (ok_json
         (JObj [("total",
                 JObj [("incoming", to_json ti); ("outgoing", to_json to)]);
                ("current",
                 JObj [("incoming", to_json ci); ("outgoing", to_json co)])])).

(** [GET /api/bandwidth/limits] *)
Definition bandwidth_limits : M response :=
  cm <- get_cloud_manager ;;
  li <- setting "TRANSFER_MAX_INCOMING" ;;
  lo <- setting "TRANSFER_MAX_OUTGOING" ;;
  ret (ok_json (jsonify [("incoming", li); ("outgoing", lo)])).

(** [GET /api/storage/usage] *)
Definition disk_usage : M response :=
  cm <- get_cloud_manager ;;
  used <- cm_read cm "used_space" ;;
  ret (ok_json (jsonify [("usage", used)])).

(** [GET /api/storage/capacity] *)
Definition storage_capacity : M response :=
  cm <- get_cloud_manager ;;
  cap <- cm_read cm "capacity" ;;
  ret (ok_json (jsonify [("capacity", cap)])).

(** [GET /api/storage/size-limit] *)
Definition storage_filesize_limit : M response :=
  size <- setting "STORAGE_FILE" ;;
  ret (ok_json (jsonify [("size", size)])).

(** [GET /api/sync/status] *)
Definition status_sync : M response :=
  cm <- get_cloud_manager ;;
  st <- cm_read cm "sync_status" ;;
  ret (ok_json (to_json st)).

(** [GET /api/dtc/balance] *)
Definition coin_balance_route : M response :=
  coin <- get_coin ;;
  bal <- call (EvCoinCall "balance" None) (coin_balance X coin) ;;
  ret (ok_json (jsonify [("balance", bal)])).

(** [GET /api/dtc/address] *)
Definition coin_address_route : M response :=
  coin <- get_coin ;;
  addr <- call (EvCoinCall "address" (Some "incoming"))
               (coin_address X coin "incoming") ;;
  ret (ok_json (jsonify [("address", addr)])).

(** The routes of the application. *)
Inductive route :=
| RUpload
| RDownload (filehash : string)
| RFind (filehash : string)
| RStatus
| RBandwidthUsage
| RBandwidthLimits
| RDiskUsage
| RStorageCapacity
| RStorageFilesizeLimit
| RStatusSync
| RCoinBalance
| RCoinAddress.

Definition dispatch (r : route) (req : request) : M response :=
  match r with
  | RUpload => upload req
  | RDownload h => download h req
  | RFind h => find h
  | RStatus => status
  | RBandwidthUsage => bandwidth_usage
  | RBandwidthLimits => bandwidth_limits
  | RDiskUsage => disk_usage
  | RStorageCapacity => storage_capacity
  | RStorageFilesizeLimit => storage_filesize_limit
  | RStatusSync => status_sync
  | RCoinBalance => coin_balance_route
  | RCoinAddress => coin_address_route
  end.

(** The handlers whose body calls [get_cloud_manager()]. *)
Definition constructs_cloud_manager (r : route) : bool :=
  match r with
  | RStorageFilesizeLimit | RCoinBalance | RCoinAddress => false
  | _ => true
  end.

(** A new application context: [g] has no attribute yet. *)
Definition fresh_context (f : gmap string bytes) (c : Core) : world :=
  {| g_cloud_manager := None; g_coin := None; fs := f; core := c;
     trace := [] |}.

(** One request: the handler in a new context, then the teardown
    function, whatever the handler did. *)
Definition serve (r : route) (req : request)
    (f : gmap string bytes) (c : Core)
  : result response * result unit * world :=
  match dispatch r req (fresh_context f c) with
  | (res, w) =>
      match close_connection w with
      | (td, w') => (res, td, w')
      end
  end.

(** A computation that leaves [g._cloud_manager] as it found it. *)
Definition keeps_manager {A} (m : M A) : Prop :=
  forall w, g_cloud_manager (snd (m w)) = g_cloud_manager w.

End Node.

(** ** The cloud manager

    Modelled from the spec: the package [cloudmanager] that [index.py]
    imports is not among the sources.  Its components are written here
    from sections 3 and 4 of the specification: ContentStore, FileIndex,
    BandwidthMeter, UploadCoordinator and DownloadWarmer.  The attempts an
    upload makes at its providers are taken one provider after the other;
    a provider's answer to a call is decided by the network state. *)

Module cloudmanager.

Local Open Scope N_scope.

Inductive ProviderState := pending | uploading | stored | failed.

Inductive ChainRecordState := unsubmitted | submitted | confirmed.

Record FileRecord := {
  hash : string;
  size : N;
  providerStatus : gmap string ProviderState;
  cachedLocally : bool;
  lastAccess : N;
  createdAt : N;
  chainRecordState : ChainRecordState
}.

Record BandwidthMeter := {
  totalIncoming : N;
  totalOutgoing : N;
  currentIncoming : N;
  currentOutgoing : N
}.

(** The providers as the node sees them: what each one holds, how many
    of the coming calls to each one fail, and the calls made so far. *)
Inductive netcall :=
| Push (provider hash : string)
| Fetch (provider hash : string).

Record Network := {
  remote : gmap string (gmap string bytes);
  outage : gmap string nat;
  netlog : list netcall
}.

Record Config := {
  providers : list string;
  max_retries : nat;
  capacity : N;
  storage_path : string
}.

Record Node := {
  index : gmap string FileRecord;      (* FileIndex *)
  entries : gmap string bytes;         (* ContentStore: CacheEntry by hash *)
  meter : BandwidthMeter;
  queue : list string;                 (* SyncQueueItem: a record's hash *)
  net : Network;
  now : N
}.

Inductive UploadOutcome := Stored | Failed.

Inductive WarmUp :=
| LocalPath (path : string)
| NotFound
| FetchFailed
| CapacityExceeded.

Definition with_index (f : gmap string FileRecord -> gmap string FileRecord)
    (s : Node) : Node :=
  {| index := f (index s); entries := entries s; meter := meter s;
     queue := queue s; net := net s; now := now s |}.

Definition with_entries (f : gmap string bytes -> gmap string bytes)
    (s : Node) : Node :=
  {| index := index s; entries := f (entries s); meter := meter s;
     queue := queue s; net := net s; now := now s |}.

Definition with_meter (f : BandwidthMeter -> BandwidthMeter) (s : Node)
  : Node :=
  {| index := index s; entries := entries s; meter := f (meter s);
     queue := queue s; net := net s; now := now s |}.

Definition with_net (n : Network) (s : Node) : Node :=
  {| index := index s; entries := entries s; meter := meter s;
     queue := queue s; net := n; now := now s |}.

Definition enqueue (h : string) (s : Node) : Node :=
  {| index := index s; entries := entries s; meter := meter s;
     queue := if bool_decide (h ∈ queue s) then queue s else queue s ++ [h];
     net := net s; now := now s |}.

Definition tick (s : Node) : Node :=
  {| index := index s; entries := entries s; meter := meter s;
     queue := queue s; net := net s; now := N.succ (now s) |}.

(** *** FileIndex *)

Definition find (h : string) (s : Node) : option FileRecord := index s !! h.

Definition upsert (r : FileRecord) : Node -> Node :=
  with_index (fun idx => <[hash r := r]> idx).

Definition markProviderStatus (h p : string) (st : ProviderState)
  : Node -> Node :=
  with_index
    (alter (fun r =>
              {| hash := hash r; size := size r;
                 providerStatus := <[p := st]> (providerStatus r);
                 cachedLocally := cachedLocally r;
                 lastAccess := lastAccess r; createdAt := createdAt r;
                 chainRecordState := chainRecordState r |}) h).

Definition markCached (h : string) (b : bool) : Node -> Node :=
  with_index
    (alter (fun r =>
              {| hash := hash r; size := size r;
                 providerStatus := providerStatus r;
                 cachedLocally := b;
                 lastAccess := lastAccess r; createdAt := createdAt r;
                 chainRecordState := chainRecordState r |}) h).

Definition touchAccess (h : string) (s : Node) : Node :=
  with_index
    (alter (fun r =>
              {| hash := hash r; size := size r;
                 providerStatus := providerStatus r;
                 cachedLocally := cachedLocally r;
                 lastAccess := now s; createdAt := createdAt r;
                 chainRecordState := chainRecordState r |}) h) s.

(** The index says the file is in the local cache. *)
Definition cached (h : string) (s : Node) : Prop :=
  exists r, index s !! h = Some r /\ cachedLocally r = true.

(** The providers that report [stored] for a record, ordered by
    provider identifier. *)
Definition stored_providers (r : FileRecord) : list string :=
  merge_sort (fun a b : string => String.leb a b)
    (List.map fst
       (List.filter
          (fun ps => match snd ps with stored => true | _ => false end)
          (map_to_list (providerStatus r)))).

(** *** BandwidthMeter *)

Definition recordIncoming (n : N) : Node -> Node :=
  with_meter (fun m =>
    {| totalIncoming := totalIncoming m + n;
       totalOutgoing := totalOutgoing m;
       currentIncoming := currentIncoming m + n;
       currentOutgoing := currentOutgoing m |}).

Definition recordOutgoing (n : N) : Node -> Node :=
  with_meter (fun m =>
    {| totalIncoming := totalIncoming m;
       totalOutgoing := totalOutgoing m + n;
       currentIncoming := currentIncoming m;
       currentOutgoing := currentOutgoing m + n |}).

(** *** ContentStore *)

Definition length_N (d : bytes) : N := N.of_nat (length d).

Definition weigh (_ : string) (d : bytes) (acc : N) : N := length_N d + acc.

(** The sizes of the entries, added up. *)
Definition usedSpace (s : Node) : N := map_fold weigh 0 (entries s).

Definition get (h : string) (s : Node) : option bytes := entries s !! h.

(** An entry may be evicted when some provider reports its record
    [stored]. *)
Definition evictable (s : Node) (h : string) : bool :=
  match index s !! h with
  | Some r => match stored_providers r with [] => false | _ => true end
  | None => false
  end.

Definition last_access (s : Node) (h : string) : N :=
  match index s !! h with
  | Some r => lastAccess r
  | None => 0%N
  end.

(** The entries that may be evicted, least recently accessed first. *)
Definition victims (s : Node) : list string :=
  merge_sort (fun a b : string => N.leb (last_access s a) (last_access s b))
    (List.filter (evictable s) (List.map fst (map_to_list (entries s)))).

Definition evict (h : string) (s : Node) : Node :=
  markCached h false (with_entries (delete h) s).

Fixpoint evict_while (cfg : Config) (incoming : N) (vs : list string)
    (s : Node) : Node :=
  match vs with
  | [] => s
  | h :: rest =>
      if (usedSpace s + incoming <=? capacity cfg)%N then s
      else evict_while cfg incoming rest (evict h s)
  end.

Definition evictIfNeeded (cfg : Config) (incoming : N) (s : Node) : Node :=
  evict_while cfg incoming (victims s) s.

(** [put] answers the bytes written, or nothing when the capacity is
    exceeded and no entry is left to evict; the store is then as
    before. *)
Definition put (cfg : Config) (h : string) (data : bytes) (s : Node)
  : option N * Node :=
  let s1 := evictIfNeeded cfg (length_N data) (with_entries (delete h) s) in
  if (usedSpace s1 + length_N data <=? capacity cfg)%N
  then (Some (length_N data), with_entries (fun e => <[h := data]> e) s1)
  else (None, s).

(** *** The providers *)

(** One call to a provider.  It is logged, and it fails as long as the
    provider's outage lasts. *)
Definition net_call (c : netcall) (p : string) (n : Network)
  : bool * Network :=
  match outage n !! p with
  | Some (S k) =>
      (false, {| remote := remote n; outage := <[p := k]> (outage n);
                 netlog := netlog n ++ [c] |})
  | _ =>
      (true, {| remote := remote n; outage := outage n;
                netlog := netlog n ++ [c] |})
  end.

Definition push (p h : string) (data : bytes) (n : Network)
  : bool * Network :=
  match net_call (Push p h) p n with
  | (true, n') =>
      (true,
       {| remote := <[p := <[h := data]> (default ∅ (remote n' !! p))]>
                      (remote n');
          outage := outage n'; netlog := netlog n' |})
  | (false, n') => (false, n')
  end.

Definition fetch (p h : string) (n : Network) : option bytes * Network :=
  match net_call (Fetch p h) p n with
  | (true, n') => (remote n' !! p ≫= (fun held => held !! h), n')
  | (false, n') => (None, n')
  end.

(** *** UploadCoordinator *)

(** A push, tried again after a failure as long as retries are left. *)
Fixpoint push_retry (retries : nat) (p h : string) (data : bytes)
    (n : Network) : bool * Network :=
  match push p h data n with
  | (true, n') => (true, n')
  | (false, n') =>
      match retries with
      | O => (false, n')
      | S k => push_retry k p h data n'
      end
  end.

(** The attempt at one provider: [uploading], then [stored] or, with
    the retries used up, [failed] and an item in the sync queue. *)
Definition attempt (cfg : Config) (h : string) (data : bytes)
    (s : Node) (p : string) : Node :=
  let s1 := markProviderStatus h p uploading s in
  match push_retry (max_retries cfg) p h data (net s1) with
  | (true, n) =>
      recordOutgoing (length_N data)
        (markProviderStatus h p stored (with_net n s1))
  | (false, n) =>
      enqueue h (markProviderStatus h p failed (with_net n s1))
  end.

Definition outcome_of (h : string) (s : Node) : UploadOutcome :=
  match index s !! h with
  | Some r => match stored_providers r with [] => Failed | _ => Stored end
  | None => Failed
  end.

Section Upload.

(** The content hash. *)
Variable digest : bytes -> string.

Definition new_record (cfg : Config) (data : bytes) (s : Node)
  : FileRecord :=
  {| hash := digest data;
     size := length_N data;
     providerStatus :=
       list_to_map (List.map (fun p => (p, pending)) (providers cfg));
     cachedLocally := true;
     lastAccess := now s;
     createdAt := match index s !! digest data with
                  | Some r => createdAt r
                  | None => now s
                  end;
     chainRecordState := unsubmitted |}.

(** The file is staged in the content store, then sent to every
    configured provider.  [Stored] when a provider reports [stored],
    [Failed] when none does or when the store has no room. *)
Definition upload (cfg : Config) (data : bytes) (s : Node)
  : (string * UploadOutcome) * Node :=
  let h := digest data in
  match put cfg h data s with
  | (None, s') => ((h, Failed), tick s')
  | (Some _, s1) =>
      let s2 := foldl (attempt cfg h data)
                      (upsert (new_record cfg data s) s1)
                      (providers cfg) in
      ((h, outcome_of h s2), tick (enqueue h s2))
  end.

End Upload.

(** *** DownloadWarmer *)

(** The candidates in order, until one delivers. *)
Fixpoint fetch_first (h : string) (ps : list string) (n : Network)
  : option bytes * Network :=
  match ps with
  | [] => (None, n)
  | p :: rest =>
      match fetch p h n with
      | (Some d, n') => (Some d, n')
      | (None, n') => fetch_first h rest n'
      end
  end.

Definition local_path (cfg : Config) (h : string) : string :=
  path_join (storage_path cfg) h.

Definition warmUp (cfg : Config) (h : string) (s : Node) : WarmUp * Node :=
  match find h s with
  | None => (NotFound, s)
  | Some r =>
      if cachedLocally r
      then (LocalPath (local_path cfg h), tick (touchAccess h s))
      else
        match fetch_first h (stored_providers r) (net s) with
        | (None, n) => (FetchFailed, tick (with_net n s))
        | (Some d, n) =>
            match put cfg h d (recordIncoming (length_N d) (with_net n s)) with
            | (None, s') => (CapacityExceeded, tick s')
            | (Some _, s') =>
                (LocalPath (local_path cfg h),
                 tick (touchAccess h (markCached h true s')))
            end
        end
  end.

(** What a provider holds for a hash. *)
Definition held (n : Network) (p h : string) : option bytes :=
  remote n !! p ≫= (fun files => files !! h).

(** Every provider the record of [h] reports [stored] holds [data]
    for [h]. *)
Definition stored_hold (h : string) (data : bytes) (s : Node) : Prop :=
  forall r p, index s !! h = Some r ->
              providerStatus r !! p = Some stored ->
              held (net s) p h = Some data.


(** A node that has stored nothing yet. *)
Definition init (n : Network) : Node :=
  {| index := ∅; entries := ∅;
     meter := {| totalIncoming := 0; totalOutgoing := 0;
                 currentIncoming := 0; currentOutgoing := 0 |};
     queue := []; net := n; now := 0 |}.

(** *** Sequences of calls *)

Inductive op :=
| OpPut (h : string) (data : bytes)
| OpEvictIfNeeded (incoming : N)
| OpUpload (data : bytes)
| OpWarmUp (h : string)
| OpMarkProviderStatus (h p : string) (st : ProviderState).

Definition step (digest : bytes -> string) (cfg : Config) (s : Node)
    (o : op) : Node :=
  match o with
  | OpPut h data => snd (put cfg h data s)
  | OpEvictIfNeeded incoming => evictIfNeeded cfg incoming s
  | OpUpload data => snd (upload digest cfg data s)
  | OpWarmUp h => snd (warmUp cfg h s)
  | OpMarkProviderStatus h p st => markProviderStatus h p st s
  end.

Definition run (digest : bytes -> string) (cfg : Config) (ops : list op)
    (s : Node) : Node :=
  foldl (step digest cfg) s ops.

End cloudmanager.

(** ** The node with its collaborators in place

    Modelled from the spec: how the cloud manager of the specification
    appears to [index.py].  Section 6 gives the operations the HTTP layer
    relies on: [upload(localStagedFile) -> {hash, outcome}], which the
    handler reads as a value that is the hash when it is true, and
    [warmUp(hash) -> localPath | NotFound], which the handler reads as a
    path or [None]. *)

Module deployment.

Import cloudmanager.

Section Deployment.

Variables (provider_list : list string) (retries : nat).
Variable digest : bytes -> string.
Variable secure : string -> string.
Variable derive : bytes -> option string -> string.
Variable cipher : string -> bytes -> bytes.
Variable decipher_chunks : string -> bytes -> list bytes.

(** [CloudManager(database_path, storage_path, storage_size)]. *)
Definition new (db storage size : pyval) : ext Node Config :=
  fun st =>
    match db, storage, size with
    | PyStr _, PyStr path, PyInt z =>
        (Ok {| providers := provider_list; max_retries := retries;
               capacity := Z.to_N z; storage_path := path |}, st)
    | _, _, _ => (Raise (ExternalError "CloudManager"), st)
    end.

Definition upload_file (cfg : Config) (path : string) : ext Node pyval :=
  fun st =>
    match fst st !! path with
    | None => (Raise (IOError path), st)
    | Some data =>
        match upload digest cfg data (snd st) with
        | ((h, Stored), s') =>
            (Ok (PyStr h), (<[local_path cfg h := data]> (fst st), s'))
        | ((_, Failed), s') => (Ok PyNone, (fst st, s'))
        end
    end.

(** The handler is given a path when the warm-up has a local file to
    name, and [None] otherwise. *)
Definition warm_up (cfg : Config) (h : string)
  : ext Node (option string) :=
  fun st =>
    match warmUp cfg h (snd st) with
    | (LocalPath p, s') =>
        (Ok (Some p),
         (match get h s' with
          | Some d => <[p := d]> (fst st)
          | None => fst st
          end, s'))
    | (NotFound, s') => (Ok None, (fst st, s'))
    | (FetchFailed, s') => (Ok None, (fst st, s'))
    | (CapacityExceeded, s') => (Ok None, (fst st, s'))
    end.

Definition info (cfg : Config) (h : string) : ext Node (option pyval) :=
  fun st =>
    (Ok (match find h (snd st) with
         | Some r =>
             Some (PyDict [("filehash", PyStr (hash r));
                           ("size", PyInt (Z.of_N (size r)))])
         | None => None
         end), st).

Definition read (cfg : Config) (method : string) : ext Node pyval :=
  fun st =>
    let s := snd st in
    let n (x : N) := PyInt (Z.of_N x) in
    (Ok (if String.eqb method "total_incoming"
         then n (totalIncoming (meter s))
         else if String.eqb method "total_outgoing"
         then n (totalOutgoing (meter s))
         else if String.eqb method "current_incoming"
         then n (currentIncoming (meter s))
         else if String.eqb method "current_outgoing"
         then n (currentOutgoing (meter s))
         else if String.eqb method "capacity" then n (capacity cfg)
         else if String.eqb method "used_space" then n (usedSpace s)
         else PyList (List.map PyStr (queue s))), st).

Definition close (cfg : Config) : ext Node unit := fun st => (Ok tt, st).

(** A wallet with nothing in it. *)
Definition wallet_new (url user password : pyval) : ext Node unit :=
  fun st => (Ok tt, st).
Definition wallet_balance (c : unit) : ext Node pyval :=
  fun st => (Ok (PyInt 0), st).
Definition wallet_address (c : unit) (purpose : string)
  : ext Node pyval :=
  fun st => (Ok (PyStr purpose), st).

Definition node : collaborators :=
  {| CM := Config; Coin := unit; Core := Node;
     cm_new := new; cm_upload := upload_file; cm_warm_up := warm_up;
     cm_info := info; cm_get := read; cm_close := close;
     coin_new := wallet_new; coin_balance := wallet_balance;
     coin_address := wallet_address;
     secure_filename := secure;
     key_from_file := derive; encrypt := cipher;
     decrypt_generator_chunks := decipher_chunks |}.

End Deployment.

(** *** A small deployment to run requests on *)

Definition shift (k : N) (b : Byte.byte) : Byte.byte :=
  default Byte.x00 (Byte.of_N ((Byte.to_N b + k) mod 256)%N).

Definition key_shift (key : string) : N :=
  (N.of_nat (String.length key) mod 256)%N.

(** A toy cipher: every byte moves by the length of the key. *)
Definition toy_encrypt (key : string) (d : bytes) : bytes :=
  List.map (shift (key_shift key)) d.

Definition toy_decrypt (key : string) (d : bytes) : bytes :=
  List.map (shift (256 - key_shift key)%N) d.

(** One chunk per byte. *)
Definition toy_chunks (key : string) (d : bytes) : list bytes :=
  List.map (fun b => [b]) (toy_decrypt key d).

Definition toy_key (d : bytes) (passphrase : option string) : string :=
  match passphrase with
  | Some p => p +:+ String.string_of_list_byte d
  | None => String.string_of_list_byte d
  end.

Definition toy_digest (d : bytes) : string :=
  "sha-" +:+ String.string_of_list_byte d.

Definition toy : collaborators :=
  node ["alpha"; "beta"; "gamma"] 2 toy_digest (fun name => name)
    toy_key toy_encrypt toy_chunks.

(** [local_settings.py] of a deployment that runs. *)
Definition local_settings : gmap string pyval :=
  list_to_map
    [ ("DATABASE_PATH", PyStr "./database/files.db");
      ("TRANSFER_MAX_INCOMING", PyInt 1000);
      ("TRANSFER_MAX_OUTGOING", PyInt 1000);
      ("STORAGE_FILE", PyInt 1000) ].

Definition ns : gmap string pyval := settings.namespace (Some local_settings).

Definition network (down : gmap string nat) : Network :=
  {| remote := ∅; outage := down; netlog := [] |}.

Definition hello : bytes :=
  [Byte.x68; Byte.x65; Byte.x6c; Byte.x6c; Byte.x6f].

(** A request's world at its start, on an empty node. *)
Definition w0 : world toy := fresh_context toy ∅ (init (network ∅)).

(** The cloud manager the handlers construct from [ns]. *)
Definition cfg0 : Config :=
  {| providers := ["alpha"; "beta"; "gamma"]; max_retries := 2;
     capacity := Z.to_N settings.STORAGE_SIZE;
     storage_path := settings.STORAGE_PATH |}.

Definition upload_request : request :=
  {| req_file := Some ("hello.txt", hello); req_args := ∅ |}.

Definition download_request (key : option string) : request :=
  {| req_file := None;
     req_args := match key with
                 | Some k => {[ "key" := k ]}
                 | None => ∅
                 end |}.

(** The world of the request that follows the upload of [hello]. *)
Definition after_upload : world toy :=
  let up := serve toy ns RUpload upload_request ∅ (init (network ∅)) in
  fresh_context toy (fs toy (snd up)) (core toy (snd up)).



(** The toy deployment with another [CloudManager.upload]. *)
Definition toy_with_upload (f : Config -> string -> ext Node pyval)
  : collaborators :=
  {| CM := Config; Coin := unit; Core := Node;
     cm_new := cm_new toy; cm_upload := f; cm_warm_up := cm_warm_up toy;
     cm_info := cm_info toy; cm_get := cm_get toy; cm_close := cm_close toy;
     coin_new := coin_new toy; coin_balance := coin_balance toy;
     coin_address := coin_address toy;
     secure_filename := secure_filename toy;
     key_from_file := key_from_file toy; encrypt := encrypt toy;
     decrypt_generator_chunks := decrypt_generator_chunks toy |}.

(** A cloud manager whose upload fails with an exception. *)
Definition failing : collaborators :=
  toy_with_upload (fun _ _ st => (Raise (ExternalError "upload"), st)).

(** A cloud manager that moves the file it is given into its storage. *)
Definition moving : collaborators :=
  toy_with_upload
    (fun cfg path st =>
       match fst st !! path with
       | Some data =>
           (Ok (PyStr (toy_digest data)),
            (<[local_path cfg (toy_digest data) := data]>
               (delete path (fst st)), snd st))
       | None => (Raise (IOError path), st)
       end).

(** The node after the upload of [hello], with the files of its cache
    deleted behind its back: the index still says the file is cached. *)
Definition cache_lost : Node :=
  with_entries (fun _ => ∅) (core toy after_upload).

End deployment.

(** * Properties *)

(** ** The content store stays within its capacity *)

Module cloudmanager_facts.

Import cloudmanager.
Local Open Scope N_scope.

Lemma usedSpace_fold (s : Node) : usedSpace s = map_fold weigh 0 (entries s).
Proof. reflexivity. Qed.

Lemma weigh_comm (j1 j2 : string) (z1 z2 : bytes) (y : N) :
  weigh j1 z1 (weigh j2 z2 y) = weigh j2 z2 (weigh j1 z1 y).
Proof. unfold weigh. lia. Qed.

Lemma fold_insert_fresh (e : gmap string bytes) (h : string) (d : bytes) :
  e !! h = None ->
  map_fold weigh 0 (<[h := d]> e) = length_N d + map_fold weigh 0 e.
Proof.
  intros Hfresh.
  rewrite map_fold_insert_L; [reflexivity | | assumption].
  intros. apply weigh_comm.
Qed.



Lemma evict_absent (h h' : string) (s : Node) :
  entries s !! h = None -> entries (evict h' s) !! h = None.
Proof.
  intros Hh. simpl.
  destruct (decide (h' = h)) as [->|Hne].
  - apply lookup_delete_eq.
  - rewrite lookup_delete_ne; assumption.
Qed.


Lemma evict_while_absent (cfg : Config) (incoming : N) (vs : list string)
    (h : string) (s : Node) :
  entries s !! h = None ->
  entries (evict_while cfg incoming vs s) !! h = None.
Proof.
  revert s. induction vs as [|v vs IH]; intros s Hh; simpl; [assumption|].
  destruct (usedSpace s + incoming <=? capacity cfg); [assumption|].
  apply IH, evict_absent, Hh.
Qed.


(** What [put] leaves when it has written. *)
Lemma put_written (cfg : Config) (h : string) (data : bytes) (s s' : Node)
    (n : N) :
  put cfg h data s = (Some n, s') ->
  entries s' !! h = Some data /\ usedSpace s' <= capacity cfg.
Proof.
  unfold put.
  set (s1 := evictIfNeeded cfg (length_N data) (with_entries (delete h) s)).
  destruct (usedSpace s1 + length_N data <=? capacity cfg) eqn:Hfit;
    [|discriminate].
  intros [= _ <-]. split.
  - simpl. apply lookup_insert_eq.
  - apply N.leb_le in Hfit.
    rewrite usedSpace_fold. simpl.
    rewrite fold_insert_fresh.
    + rewrite usedSpace_fold in Hfit. lia.
    + apply evict_while_absent. simpl. apply lookup_delete_eq.
Qed.




Lemma attempt_entries (cfg : Config) (h : string) (data : bytes)
    (s : Node) (p : string) :
  entries (attempt cfg h data s p) = entries s.
Proof.
  unfold attempt.
  destruct (push_retry _ _ _ _ _) as [[|] n]; reflexivity.
Qed.

Lemma attempts_entries (cfg : Config) (h : string) (data : bytes)
    (ps : list string) (s : Node) :
  entries (foldl (attempt cfg h data) s ps) = entries s.
Proof.
  revert s. induction ps as [|p ps IH]; intros s; simpl; [reflexivity|].
  rewrite IH. apply attempt_entries.
Qed.






(** ** Warm-up after an upload *)

Lemma markProviderStatus_cached (h h' p : string) (st : ProviderState)
    (s : Node) :
  cached h s -> cached h (markProviderStatus h' p st s).
Proof.
  intros (r & Hr & Hc). unfold cached, markProviderStatus. simpl.
  destruct (decide (h' = h)) as [->|Hne].
  - rewrite lookup_alter_eq, Hr. simpl. eexists. split; [reflexivity|].
    exact Hc.
  - rewrite lookup_alter_ne by assumption. eauto.
Qed.

Lemma cached_index (h : string) (s s' : Node) :
  index s' = index s -> cached h s -> cached h s'.
Proof. unfold cached. intros ->. trivial. Qed.

Lemma attempt_cached (cfg : Config) (h h' : string) (data : bytes)
    (s : Node) (p : string) :
  cached h s -> cached h (attempt cfg h' data s p).
Proof.
  intros Hc. unfold attempt.
  apply (markProviderStatus_cached h h' p uploading) in Hc.
  destruct (push_retry _ _ _ _ _) as [[|] n].
  - eapply cached_index; [reflexivity|].
    apply markProviderStatus_cached.
    eapply cached_index; [|exact Hc]. reflexivity.
  - eapply cached_index; [reflexivity|].
    apply markProviderStatus_cached.
    eapply cached_index; [|exact Hc]. reflexivity.
Qed.

Lemma attempts_cached (cfg : Config) (h h' : string) (data : bytes)
    (ps : list string) (s : Node) :
  cached h s -> cached h (foldl (attempt cfg h' data) s ps).
Proof.
  revert s. induction ps as [|p ps IH]; intros s Hc; simpl; [exact Hc|].
  apply IH, attempt_cached, Hc.
Qed.

(** What an upload that answers [Stored] leaves behind: the hash is the
    digest, the content is in the store and the record says so. *)
Lemma upload_stored (digest : bytes -> string) (cfg : Config)
    (data : bytes) (s s' : Node) (h : string) :
  upload digest cfg data s = ((h, Stored), s') ->
  h = digest data /\ entries s' !! h = Some data /\ cached h s'.
Proof.
  unfold upload.
  destruct (put cfg (digest data) data s) as [[n|] s1] eqn:Hput;
    [|discriminate].
  intros [= <- _ <-]. split; [reflexivity|].
  apply put_written in Hput as [Hentry _]. split.
  - simpl. rewrite attempts_entries. simpl. exact Hentry.
  - assert (Hc : cached (digest data)
                   (foldl (attempt cfg (digest data) data)
                      (upsert (new_record digest cfg data s) s1)
                      (providers cfg))).
    { apply attempts_cached. unfold cached, upsert. simpl.
      rewrite lookup_insert_eq. eauto. }
    destruct Hc as (r & Hr & Hc). exists r. split; [exact Hr | exact Hc].
Qed.

Lemma stored_providers_stored (r : FileRecord) (p : string) :
  p ∈ stored_providers r -> providerStatus r !! p = Some stored.
Proof.
  unfold stored_providers. rewrite merge_sort_Permutation.
  change (List.map fst ?l) with (fst <$> l).
  intros Hp. apply list_elem_of_fmap in Hp as ([q st] & -> & Hin).
  apply list_elem_of_In, filter_In in Hin as [Hin Hst].
  apply list_elem_of_In, elem_of_map_to_list in Hin.
  simpl in *. destruct st; try discriminate. exact Hin.
Qed.

Lemma net_call_remote c p n : remote (snd (net_call c p n)) = remote n.
Proof. unfold net_call. destruct (outage n !! p) as [[|k]|]; reflexivity. Qed.

Lemma push_held (p h : string) (data : bytes) (n : Network) (q : string) :
  (fst (push p h data n) = true -> held (snd (push p h data n)) p h = Some data) /\
  (held n q h = Some data -> held (snd (push p h data n)) q h = Some data).
Proof.
  unfold push. pose proof (net_call_remote (Push p h) p n) as Hrem.
  destruct (net_call (Push p h) p n) as [[|] n']; simpl in *.
  - unfold held. simpl. split.
    + intros _. rewrite lookup_insert_eq. simpl. apply lookup_insert_eq.
    + rewrite Hrem. intros Hq. destruct (decide (p = q)) as [->|Hne].
      * rewrite lookup_insert_eq. simpl. apply lookup_insert_eq.
      * rewrite lookup_insert_ne by assumption. exact Hq.
  - split; [discriminate|]. unfold held. rewrite Hrem. trivial.
Qed.

Lemma push_retry_held (k : nat) (p h : string) (data : bytes) (n : Network) (q : string) :
  (fst (push_retry k p h data n) = true -> held (snd (push_retry k p h data n)) p h = Some data) /\
  (held n q h = Some data -> held (snd (push_retry k p h data n)) q h = Some data).
Proof.
  revert n. induction k as [|k IH]; intros n; simpl.
  - pose proof (push_held p h data n q) as [H1 H2].
    destruct (push p h data n) as [[|] n']; simpl in *; split; auto.
  - pose proof (push_held p h data n q) as [H1 H2].
    destruct (push p h data n) as [[|] n']; simpl in *; [split; auto|].
    destruct (IH n') as [H3 H4]. split; auto.
Qed.

Lemma attempt_stored_hold (cfg : Config) (h : string) (data : bytes)
    (s : Node) (p : string) :
  stored_hold h data s -> stored_hold h data (attempt cfg h data s p).
Proof.
  intros Hinv. unfold attempt.
  set (s1 := markProviderStatus h p uploading s).
  pose proof (fun q => push_retry_held (max_retries cfg) p h data (net s1) q) as Hpush.
  destruct (push_retry (max_retries cfg) p h data (net s1)) as [[|] n] eqn:Hp;
    intros r q Hr Hq; simpl in Hr; rewrite !lookup_alter_eq in Hr;
    destruct (index s !! h) as [r0|] eqn:Hr0; try discriminate;
    simpl in Hr; injection Hr as <-; simpl in Hq; simpl.
  - destruct (decide (p = q)) as [->|Hne].
    + apply (proj1 (Hpush q)). reflexivity.
    + rewrite lookup_insert_ne in Hq by assumption.
      rewrite lookup_insert_ne in Hq by assumption.
      apply (proj2 (Hpush q)). simpl. apply (Hinv r0 q Hr0 Hq).
  - destruct (decide (p = q)) as [->|Hne].
    + rewrite lookup_insert_eq in Hq. discriminate.
    + rewrite lookup_insert_ne in Hq by assumption.
      rewrite lookup_insert_ne in Hq by assumption.
      apply (proj2 (Hpush q)). simpl. apply (Hinv r0 q Hr0 Hq).
Qed.

Lemma attempts_stored_hold (cfg : Config) (h : string) (data : bytes)
    (ps : list string) (s : Node) :
  stored_hold h data s ->
  stored_hold h data (foldl (attempt cfg h data) s ps).
Proof.
  revert s. induction ps as [|p ps IH]; intros s Hs; simpl; [exact Hs|].
  apply IH, attempt_stored_hold, Hs.
Qed.

Lemma pending_only (ps : list string) (p : string) (st : ProviderState) :
  (list_to_map (List.map (fun p => (p, pending)) ps) : gmap string ProviderState) !! p = Some st -> st = pending.
Proof.
  induction ps as [|q ps IH]; simpl.
  - rewrite lookup_empty. discriminate.
  - destruct (decide (q = p)) as [->|Hne].
    + rewrite lookup_insert_eq. congruence.
    + rewrite lookup_insert_ne by assumption. exact IH.
Qed.

Lemma upload_stored_hold (digest : bytes -> string) (cfg : Config)
    (data : bytes) (s s' : Node) (h : string) :
  upload digest cfg data s = ((h, Stored), s') -> stored_hold h data s'.
Proof.
  unfold upload.
  destruct (put cfg (digest data) data s) as [[n|] s1] eqn:Hput;
    [|discriminate].
  intros [= <- _ <-].
  assert (H0 : stored_hold (digest data) data (upsert (new_record digest cfg data s) s1)).
  { intros r p Hr Hp. simpl in Hr. rewrite lookup_insert_eq in Hr.
    injection Hr as <-. simpl in Hp. apply pending_only in Hp. discriminate. }
  apply (attempts_stored_hold cfg _ _ (providers cfg)) in H0.
  intros r p Hr Hp. apply (H0 r p Hr Hp).
Qed.

Lemma fetch_held (p h : string) (n : Network) :
  remote (snd (fetch p h n)) = remote n /\
  (forall d, fst (fetch p h n) = Some d -> held n p h = Some d).
Proof.
  unfold fetch. pose proof (net_call_remote (Fetch p h) p n) as Hrem.
  destruct (net_call (Fetch p h) p n) as [[|] n']; simpl in *.
  - split; [exact Hrem|]. unfold held. rewrite Hrem. trivial.
  - split; [exact Hrem | discriminate].
Qed.

Lemma fetch_first_held (h : string) (data : bytes) (ps : list string)
    (n : Network) (d : bytes) :
  (forall p, p ∈ ps -> held n p h = Some data) ->
  fst (fetch_first h ps n) = Some d -> d = data.
Proof.
  revert n. induction ps as [|p ps IH]; intros n Hall; simpl; [discriminate|].
  pose proof (fetch_held p h n) as [Hrem Hd].
  destruct (fetch p h n) as [[d'|] n']; simpl in *.
  - intros [= ->]. specialize (Hd d eq_refl).
    rewrite (Hall p) in Hd by left. congruence.
  - apply IH. intros q Hq. unfold held. rewrite Hrem. apply Hall. right. exact Hq.
Qed.

Lemma warmUp_after_eviction (digest : bytes -> string) (cfg : Config)
    (data : bytes) (s s' : Node) (h path : string) :
  upload digest cfg data s = ((h, Stored), s') ->
  fst (warmUp cfg h (evict h s')) = LocalPath path ->
  get h (snd (warmUp cfg h (evict h s'))) = Some data.
Proof.
  intros Hup. pose proof (upload_stored_hold _ _ _ _ _ _ Hup) as Hinv.
  apply upload_stored in Hup as (_ & _ & r & Hr & _).
  unfold warmUp, find, evict. simpl. rewrite lookup_alter_eq, Hr. simpl.
  set (r' := {| hash := hash r |}).
  assert (Hall : forall p, p ∈ stored_providers r' -> held (net s') p h = Some data).
  { intros p Hp. apply stored_providers_stored in Hp. apply (Hinv r p Hr Hp). }
  pose proof (fetch_first_held h data (stored_providers r') (net s')) as Hd.
  destruct (fetch_first h (stored_providers r') (net s')) as [[d|] n];
    [|discriminate].
  rewrite (Hd d Hall eq_refl).
  match goal with |- context [put cfg h data ?st] => destruct (put cfg h data st) as [[k|] s2] eqn:Hput end;
    [|discriminate].
  intros _. apply put_written in Hput as [He _]. simpl. exact He.
Qed.

(** C2: after an upload that answered [Stored] with hash [h],
    [warmUp h] answers the local path of [h], and the content the store
    then holds for [h] is, byte for byte, the content that was
    uploaded.  The same content comes back when the entry has been
    evicted in between and the warm-up fetches it from a provider. *)
Theorem warmUp_after_stored_upload (digest : bytes -> string)
    (cfg : Config) (data : bytes) (s s' : Node) (h : string) :
  upload digest cfg data s = ((h, Stored), s') ->
  fst (warmUp cfg h s') = LocalPath (local_path cfg h) /\
  get h (snd (warmUp cfg h s')) = Some data /\
  forall path,
    fst (warmUp cfg h (evict h s')) = LocalPath path ->
    get h (snd (warmUp cfg h (evict h s'))) = Some data.
Proof.
  intros Hup. split; [|split].
  - apply upload_stored in Hup as (_ & _ & r & Hr & Hc).
    unfold warmUp, find. rewrite Hr, Hc. reflexivity.
  - apply upload_stored in Hup as (_ & Hentry & r & Hr & Hc).
    unfold warmUp, find. rewrite Hr, Hc. simpl. exact Hentry.
  - intros path. apply (warmUp_after_eviction digest cfg data s s' h path Hup).
Qed.

Lemma warmUp_after_stored_upload_witness :
  let cfg := {| providers := ["alpha"; "beta"; "gamma"]; max_retries := 2;
                capacity := 64; storage_path := "./uploads" |} in
  let up := upload deployment.toy_digest cfg deployment.hello
              (init (deployment.network ∅)) in
  fst (warmUp cfg (fst (fst up)) (snd up))
    = LocalPath (local_path cfg (fst (fst up))) /\
  get (fst (fst up)) (snd (warmUp cfg (fst (fst up)) (snd up)))
    = Some deployment.hello.
Proof.
  intros cfg up.
  destruct (warmUp_after_stored_upload deployment.toy_digest cfg
              deployment.hello (init (deployment.network ∅)) (snd up)
              (fst (fst up)))
    as (Hpath & Hcontent & _).
  - vm_compute. reflexivity.
  - split; [exact Hpath | exact Hcontent].
Defined.

(** ** Warm-up of a hash that is unknown, or known and out of reach *)

Lemma warmUp_unknown (cfg : Config) (h : string) (s : Node) :
  find h s = None -> warmUp cfg h s = (NotFound, s).
Proof. intros Hf. unfold warmUp. rewrite Hf. reflexivity. Qed.







End cloudmanager_facts.

(** ** The request handlers *)

Module node_facts.

Local Open Scope list_scope.

(** *** The settings as shipped *)

Lemma shipped_DATABASE :
  settings.namespace None !! "DATABASE" = Some (PyStr "./database/files.db").
Proof. reflexivity. Qed.

Lemma shipped_lacks (name : string) :
  name ∈ ["DATABASE_PATH"; "TRANSFER_MAX_INCOMING"; "TRANSFER_MAX_OUTGOING";
          "STORAGE_FILE"] ->
  getattr (settings.namespace None) name
    = Raise (AttributeError "settings" name).
Proof.
  intros Hin. repeat (apply elem_of_cons in Hin as [->|Hin]; [reflexivity|]).
  apply elem_of_nil in Hin. contradiction.
Qed.

Section Shipped.

Variable X : collaborators.

Let shipped := settings.namespace None.
Let missing := @Raise (CM X) (AttributeError "settings" "DATABASE_PATH").

Lemma make_cloudmanager_shipped (w : world X) :
  make_cloudmanager X shipped w = (missing, w).
Proof. reflexivity. Qed.

Lemma get_cloud_manager_shipped (w : world X) :
  g_cloud_manager X w = None ->
  get_cloud_manager X shipped w = (missing, w).
Proof. intros Hg. unfold get_cloud_manager. rewrite Hg. reflexivity. Qed.

(** A handler that opens with [cm = get_cloud_manager()]. *)
Lemma opens_with_cloud_manager {A : Type} (k : CM X -> M X A)
    (w : world X) :
  g_cloud_manager X w = None ->
  bind X (get_cloud_manager X shipped) k w
    = (Raise (AttributeError "settings" "DATABASE_PATH"), w).
Proof.
  intros Hg. unfold bind. rewrite get_cloud_manager_shipped by exact Hg.
  reflexivity.
Qed.

End Shipped.

(** *** Running the handlers *)

Ltac run :=
  unfold bind, ret, raise, log, set_fs, read_file, lift_result, call;
  cbn [g_cloud_manager g_coin fs core trace fst snd].

Ltac proj := cbn [g_cloud_manager g_coin fs core trace fst snd].

Section Handlers.

Variable X : collaborators.
Variable ns : gmap string pyval.

Lemma stage_run (temp : string) (content : bytes) (w : world X) :
  bind X (file_save X temp content)
    (fun _ => encrypt_file_inline X temp None) w
  = (Ok (key_from_file X content None),
     {| g_cloud_manager := g_cloud_manager X w; g_coin := g_coin X w;
        fs := <[temp := encrypt X (key_from_file X content None) content]>
                (fs X w);
        core := core X w;
        trace := trace X w ++ [EvSave temp; EvEncrypt temp None] |}).
Proof.
  unfold file_save, encrypt_file_inline. run.
  rewrite lookup_insert_eq. proj.
  rewrite insert_insert_eq, <- app_assoc. reflexivity.
Qed.

Lemma upload_unfold (req : request) (w : world X) (name : string)
    (content : bytes) :
  req_file req = Some (name, content) ->
  upload X ns req w
  = try_finally X
      (upload_respond X ns (path_join TEMP_FOLDER (secure_filename X name))
         (key_from_file X content None))
      (os_remove X (path_join TEMP_FOLDER (secure_filename X name)))
      (staged X (path_join TEMP_FOLDER (secure_filename X name))
         content w).
Proof.
  intros Hf. set (temp := path_join TEMP_FOLDER (secure_filename X name)).
  unfold staged. rewrite stage_run. cbn [snd].
  unfold upload. rewrite Hf.
  unfold bind at 1. unfold ret at 1. cbn [fst snd]. fold temp.
  unfold bind at 1. unfold try_finally.
  pose proof (stage_run temp content w) as Hs. unfold bind at 1 in Hs.
  destruct (file_save X temp content w) as [[u|e] w1] eqn:Hsave;
    [|discriminate].
  unfold bind at 1. rewrite Hs. reflexivity.
Qed.

Lemma upload_without_file (req : request) (w : world X) :
  req_file req = None ->
  upload X ns req w = (Raise (BadRequestKeyError "file"), w).
Proof. intros Hf. unfold upload. rewrite Hf. reflexivity. Qed.

Lemma os_remove_present (path : string) (w : world X) :
  is_Some (fs X w !! path) ->
  os_remove X path w
  = (Ok tt,
     {| g_cloud_manager := g_cloud_manager X w; g_coin := g_coin X w;
        fs := delete path (fs X w); core := core X w;
        trace := trace X w ++ [EvRemove path] |}).
Proof.
  intros [c Hc]. unfold os_remove. run. rewrite Hc. reflexivity.
Qed.

(** *** Only additions to the log *)

Lemma appends_ret {A} (a : A) : appends X (ret X a).
Proof. intros w. exists []. simpl. rewrite app_nil_r. reflexivity. Qed.

Lemma appends_bind {A B} (m : M X A) (k : A -> M X B) :
  appends X m -> (forall a, appends X (k a)) -> appends X (bind X m k).
Proof.
  intros Hm Hk w. unfold bind. destruct (Hm w) as [l Hl].
  destruct (m w) as [[a|e] w1]; simpl in *.
  - destruct (Hk a w1) as [l' Hl']. exists (l ++ l').
    rewrite Hl', Hl, app_assoc. reflexivity.
  - exists l. exact Hl.
Qed.

Lemma appends_try_finally {A} (m : M X A) (f : M X unit) :
  appends X m -> appends X f -> appends X (try_finally X m f).
Proof.
  intros Hm Hf w. unfold try_finally. destruct (Hm w) as [l Hl].
  destruct (m w) as [r w1]. simpl in Hl.
  destruct (Hf w1) as [l' Hl']. exists (l ++ l').
  destruct (f w1) as [[u|e] w2]; simpl in *;
    rewrite Hl', Hl, app_assoc; reflexivity.
Qed.

Lemma appends_call {A} (e : event) (op : ext (Core X) A) :
  appends X (call X e op).
Proof.
  intros w. unfold call. destruct (op _) as [r [f c]]. exists [e].
  reflexivity.
Qed.

Lemma appends_setting (name : string) : appends X (setting X ns name).
Proof.
  intros w. exists []. unfold setting, lift_result. simpl.
  rewrite app_nil_r. reflexivity.
Qed.

Lemma appends_get_cloud_manager : appends X (get_cloud_manager X ns).
Proof.
  intros w. unfold get_cloud_manager.
  destruct (g_cloud_manager X w) as [cm|].
  - apply appends_ret.
  - revert w. change (appends X
      (bind X (make_cloudmanager X ns)
         (fun cm => bind X (set_g_cloud_manager X cm)
                      (fun _ => ret X cm)))).
    apply appends_bind.
    + unfold make_cloudmanager.
      repeat (apply appends_bind; [apply appends_setting | intros ?]).
      apply appends_call.
    + intros cm. apply appends_bind; [|intros; apply appends_ret].
      intros w. exists []. simpl. rewrite app_nil_r. reflexivity.
Qed.

Lemma appends_upload_respond (temp key : string) :
  appends X (upload_respond X ns temp key).
Proof.
  unfold upload_respond.
  apply appends_bind; [apply appends_get_cloud_manager | intros cm].
  apply appends_bind; [apply appends_call | intros r].
  apply appends_ret.
Qed.

Lemma appends_os_remove (path : string) : appends X (os_remove X path).
Proof.
  intros w. unfold os_remove. run.
  destruct (fs X w !! path); exists [EvRemove path]; reflexivity.
Qed.

End Handlers.

(** *** Upload *)

Section Upload.

Variable X : collaborators.
Variable ns : gmap string pyval.

(** C7: for every upload request, the staged file is encrypted in
    place, under the key derived from its content with no key
    supplied, before the cloud manager is reached: the rest of the
    handler, which is where [CloudManager.upload] is called, starts
    from a world in which the file at the staging path is already
    the encryption, the state behind the cloud manager is untouched,
    and the log holds the save and the encryption and nothing else
    of this request.  A request without a file stops before any of
    this. *)
Theorem upload_encrypts_before_cloud_manager (req : request)
    (w : world X) :
  match req_file req with
  | Some (name, content) =>
      let temp := path_join TEMP_FOLDER (secure_filename X name) in
      let key := key_from_file X content None in
      let w0 := staged X temp content w in
      upload X ns req w
        = try_finally X (upload_respond X ns temp key)
            (os_remove X temp) w0 /\
      fs X w0 !! temp = Some (encrypt X key content) /\
      core X w0 = core X w /\
      g_cloud_manager X w0 = g_cloud_manager X w /\
      trace X w0 = trace X w ++ [EvSave temp; EvEncrypt temp None] /\
      exists rest,
        trace X (snd (upload X ns req w)) = trace X w0 ++ rest
  | None => upload X ns req w = (Raise (BadRequestKeyError "file"), w)
  end.
Proof.
  destruct (req_file req) as [[name content]|] eqn:Hf;
    [|apply upload_without_file, Hf].
  cbv zeta. rewrite (upload_unfold X ns req w name content Hf).
  unfold staged. rewrite stage_run. proj.
  split; [reflexivity|]. split; [apply lookup_insert_eq|].
  repeat (split; [reflexivity|]).
  apply appends_try_finally.
  - apply appends_upload_respond.
  - apply appends_os_remove.
Qed.

(** C4: on an upload request with a file, when [CloudManager.upload]
    returns a result and the staged file is still there to be
    removed, the response is 201 with the result as file hash and
    the derived key if the result is true, and 500 with the error
    'Upload failed' if it is false. *)
Theorem upload_response (req : request) (w w1 : world X)
    (name : string) (content : bytes) (cm : CM X) (result : pyval)
    (st2 : gmap string bytes * Core X) :
  req_file req = Some (name, content) ->
  get_cloud_manager X ns
    (staged X (path_join TEMP_FOLDER (secure_filename X name)) content w)
    = (Ok cm, w1) ->
  cm_upload X cm (path_join TEMP_FOLDER (secure_filename X name))
    (fs X w1, core X w1) = (Ok result, st2) ->
  is_Some (fst st2 !! path_join TEMP_FOLDER (secure_filename X name)) ->
  fst (upload X ns req w)
  = Ok (set_header "Access-Control-Allow-Credentials" "true"
          (set_header "Access-Control-Allow-Origin"
             "http://localhost:8000"
             (if truthy result
              then json_response
                     (jsonify [("filehash", result);
                               ("key",
                                PyStr (key_from_file X content None))])
                     201
              else json_response
                     (jsonify [("error", PyStr "Upload failed")]) 500))).
Proof.
  intros Hf Hcm Hup Hthere.
  rewrite (upload_unfold X ns req w name content Hf).
  unfold try_finally, upload_respond. unfold bind at 1. rewrite Hcm.
  unfold bind at 1. unfold call at 1. rewrite Hup.
  destruct st2 as [fs2 core2]. unfold ret. proj.
  rewrite os_remove_present by exact Hthere. proj.
  destruct (truthy result); reflexivity.
Qed.

End Upload.

Lemma upload_response_witness :
  fst (upload deployment.toy deployment.ns deployment.upload_request
         deployment.w0)
  = Ok (set_header "Access-Control-Allow-Credentials" "true"
          (set_header "Access-Control-Allow-Origin" "http://localhost:8000"
             (if truthy (PyStr "sha-mjqqt")
              then json_response
                     (jsonify [("filehash", PyStr "sha-mjqqt");
                               ("key",
                                PyStr (key_from_file deployment.toy
                                         deployment.hello None))])
                     201
              else json_response
                     (jsonify [("error", PyStr "Upload failed")]) 500))).
Proof.
  pose (w1 := snd (get_cloud_manager deployment.toy deployment.ns
                     (staged deployment.toy "tmp/hello.txt"
                        deployment.hello deployment.w0))).
  pose (st2 := snd (cm_upload deployment.toy deployment.cfg0
                      "tmp/hello.txt"
                      (fs deployment.toy w1, core deployment.toy w1))).
  apply (upload_response deployment.toy deployment.ns
           deployment.upload_request deployment.w0 w1 "hello.txt"
           deployment.hello deployment.cfg0 (PyStr "sha-mjqqt") st2).
  - reflexivity.
  - apply injective_projections; [vm_compute|]; reflexivity.
  - vm_compute. reflexivity.
  - vm_compute. eexists. reflexivity.
Defined.

(** *** The settings as shipped, at the handlers *)

Section ShippedRoutes.

Variable X : collaborators.

Let shipped := settings.namespace None.

Lemma bind_never_responds {A B} (m : M X A) (k : A -> M X B) :
  (forall a w1, exists e, fst (k a w1) = Raise e) ->
  forall w, exists e, fst (bind X m k w) = Raise e.
Proof.
  intros Hk w. unfold bind. destruct (m w) as [[a|e] w1]; [apply Hk|].
  exists e. reflexivity.
Qed.

Lemma status_never_responds (w : world X) :
  exists e, fst (status X shipped w) = Raise e.
Proof.
  unfold status. revert w.
  do 6 (apply bind_never_responds; intros ? ?).
  eexists. reflexivity.
Qed.

Lemma upload_shipped (req : request) (w : world X) (name : string)
    (content : bytes) :
  req_file req = Some (name, content) ->
  g_cloud_manager X w = None ->
  fst (upload X shipped req w)
    = Raise (AttributeError "settings" "DATABASE_PATH") /\
  g_cloud_manager X (snd (upload X shipped req w)) = None.
Proof.
  intros Hf Hg. rewrite (upload_unfold X shipped req w name content Hf).
  unfold staged. rewrite stage_run. proj.
  unfold try_finally, upload_respond.
  rewrite opens_with_cloud_manager by exact Hg.
  rewrite os_remove_present
    by (proj; rewrite lookup_insert_eq; eexists; reflexivity).
  proj. split; [reflexivity | exact Hg].
Qed.

(** C3: with the settings as shipped and no [local_settings], every
    handler that calls [get_cloud_manager()] in a context that has
    no manager yet raises and gives no response: the attribute
    [DATABASE_PATH] is looked up on a module that binds [DATABASE]
    and not [DATABASE_PATH], and no manager is constructed (the one
    handler that stops earlier is [upload] on a request without a
    file).  The attributes [TRANSFER_MAX_INCOMING],
    [TRANSFER_MAX_OUTGOING] and [STORAGE_FILE] are not bound either,
    and the status handler gives no response in any context. *)
Theorem shipped_settings_break_cloud_manager_routes (r : route)
    (req : request) (w : world X) :
  constructs_cloud_manager r = true ->
  g_cloud_manager X w = None ->
  (fst (dispatch X shipped r req w)
     = Raise (AttributeError "settings" "DATABASE_PATH") \/
   (r = RUpload /\ req_file req = None /\
    fst (dispatch X shipped r req w)
      = Raise (BadRequestKeyError "file"))) /\
  g_cloud_manager X (snd (dispatch X shipped r req w)) = None /\
  shipped !! "DATABASE" = Some (PyStr "./database/files.db") /\
  shipped !! "DATABASE_PATH" = None /\
  (forall name,
     name ∈ ["TRANSFER_MAX_INCOMING"; "TRANSFER_MAX_OUTGOING";
             "STORAGE_FILE"] ->
     getattr shipped name = Raise (AttributeError "settings" name)) /\
  (forall w', exists e, fst (status X shipped w') = Raise e).
Proof.
  intros Hr Hg.
  assert (Hroute :
    (fst (dispatch X shipped r req w)
       = Raise (AttributeError "settings" "DATABASE_PATH") \/
     (r = RUpload /\ req_file req = None /\
      fst (dispatch X shipped r req w)
        = Raise (BadRequestKeyError "file"))) /\
    g_cloud_manager X (snd (dispatch X shipped r req w)) = None).
  { destruct r; try discriminate Hr; cbn [dispatch];
      try (unfold download, find, status, bandwidth_usage,
             bandwidth_limits, disk_usage, storage_capacity, status_sync;
           rewrite opens_with_cloud_manager by exact Hg;
           split; [left; reflexivity | exact Hg]).
    destruct (req_file req) as [[name content]|] eqn:Hf.
    - destruct (upload_shipped req w name content Hf Hg) as [H1 H2].
      split; [left; exact H1 | exact H2].
    - rewrite upload_without_file by exact Hf.
      split; [right; auto | exact Hg]. }
  destruct Hroute as [H1 H2].
  split; [exact H1|]. split; [exact H2|].
  split; [reflexivity|]. split; [reflexivity|].
  split; [|apply status_never_responds].
  intros name Hin. apply shipped_lacks.
  apply elem_of_cons. right. exact Hin.
Qed.

End ShippedRoutes.

Lemma shipped_settings_break_cloud_manager_routes_witness :
  fst (dispatch deployment.toy (settings.namespace None) RStatus
         (deployment.download_request None) deployment.w0)
    = Raise (AttributeError "settings" "DATABASE_PATH") \/
  (RStatus = RUpload /\
   req_file (deployment.download_request None) = None /\
   fst (dispatch deployment.toy (settings.namespace None) RStatus
          (deployment.download_request None) deployment.w0)
     = Raise (BadRequestKeyError "file")).
Proof.
  apply (shipped_settings_break_cloud_manager_routes deployment.toy RStatus
           (deployment.download_request None) deployment.w0);
    reflexivity.
Defined.

(** *** Teardown *)

Section Teardown.

Variable X : collaborators.
Variable ns : gmap string pyval.

Lemma close_connection_closes (w w' : world X) (u : unit) :
  close_connection X ns w = (Ok u, w') ->
  exists before, trace X w' = before ++ [EvCMCall "close" None].
Proof.
  unfold close_connection, bind.
  destruct (get_cloud_manager X ns w) as [[cm|e] w1]; [|discriminate].
  unfold call. destruct (cm_close X cm _) as [r [f c]].
  intros [= -> <-]. eexists. reflexivity.
Qed.

(** C10: the teardown function calls [get_cloud_manager()] without
    looking at what the request did.  In a context where no handler
    made a manager, and with the three settings bound, it constructs
    one, stores it on [g] and calls [close()] on it: the log gains the
    construction and the close, in that order.  However it is
    entered, the teardown does not return without having called
    [close()]. *)
Theorem teardown_constructs_cloud_manager (w : world X)
    (db storage size : pyval) (cm : CM X)
    (st1 : gmap string bytes * Core X) :
  g_cloud_manager X w = None ->
  ns !! "DATABASE_PATH" = Some db ->
  ns !! "STORAGE_PATH" = Some storage ->
  ns !! "STORAGE_SIZE" = Some size ->
  cm_new X db storage size (fs X w, core X w) = (Ok cm, st1) ->
  close_connection X ns w
  = (fst (cm_close X cm st1),
     {| g_cloud_manager := Some cm; g_coin := g_coin X w;
        fs := fst (snd (cm_close X cm st1));
        core := snd (snd (cm_close X cm st1));
        trace := trace X w ++ [EvCMNew db storage size;
                               EvCMCall "close" None] |}) /\
  forall w1 w2 u,
    close_connection X ns w1 = (Ok u, w2) ->
    exists before, trace X w2 = before ++ [EvCMCall "close" None].
Proof.
  intros Hg Hdb Hst Hsz Hnew. split.
  - unfold close_connection, get_cloud_manager. unfold bind at 1.
    rewrite Hg. unfold make_cloudmanager, setting, getattr.
    rewrite Hdb, Hst, Hsz. run. rewrite Hnew.
    destruct st1 as [f1 c1]. unfold set_g_cloud_manager. proj.
    destruct (cm_close X cm (f1, c1)) as [r [f2 c2]]. proj.
    rewrite <- app_assoc. reflexivity.
  - intros w1 w2 u. apply close_connection_closes.
Qed.

End Teardown.

Lemma teardown_constructs_cloud_manager_witness :
  let w := snd (coin_balance_route deployment.toy deployment.ns
                  deployment.w0) in
  g_cloud_manager deployment.toy w = None /\
  trace deployment.toy (snd (close_connection deployment.toy deployment.ns w))
    = trace deployment.toy w
        ++ [EvCMNew (PyStr "./database/files.db") (PyStr "./uploads")
              (PyInt 20971520);
            EvCMCall "close" None].
Proof.
  intros w. split; [reflexivity|].
  destruct (teardown_constructs_cloud_manager deployment.toy deployment.ns
              w (PyStr "./database/files.db") (PyStr "./uploads")
              (PyInt 20971520) deployment.cfg0
              (fs deployment.toy w, core deployment.toy w))
    as [Hrun _].
  - reflexivity.
  - vm_compute. reflexivity.
  - vm_compute. reflexivity.
  - vm_compute. reflexivity.
  - vm_compute. reflexivity.
  - rewrite Hrun. reflexivity.
Defined.

(** *** Download *)

Section Download.

Variable X : collaborators.
Variable ns : gmap string pyval.

(** The handler up to the answer of [cm.warm_up]. *)
Lemma download_run (h : string) (req : request) (w w1 : world X)
    (cm : CM X) (full_path : option string)
    (st2 : gmap string bytes * Core X) :
  get_cloud_manager X ns w = (Ok cm, w1) ->
  cm_warm_up X cm h (fs X w1, core X w1) = (Ok full_path, st2) ->
  download X ns h req w
  = match full_path with
    | None => ret X not_found
    | Some full_path =>
        match req_args req !! "key" with
        | None => send_file X full_path (basename full_path)
        | Some key =>
            fun w =>
              (Ok {| status_code := 200;
                     resp_body :=
                       BodyStream
                         (decrypt_generator X full_path key (fs X w));
                     mimetype := "application/octet-stream";
                     headers := [("Content-Disposition",
                                  "attachment;filename="
                                    +:+ basename full_path)] |}, w)
        end
    end
      {| g_cloud_manager := g_cloud_manager X w1; g_coin := g_coin X w1;
         fs := fst st2; core := snd st2;
         trace := trace X w1 ++ [EvCMCall "warm_up" (Some h)] |}.
Proof.
  intros Hcm Hwarm. unfold download. unfold bind at 1. rewrite Hcm.
  unfold bind at 1. unfold call. rewrite Hwarm.
  destruct st2 as [f2 c2]. reflexivity.
Qed.

Lemma download_none (h : string) (req : request) (w w1 : world X)
    (cm : CM X) (st2 : gmap string bytes * Core X) :
  get_cloud_manager X ns w = (Ok cm, w1) ->
  cm_warm_up X cm h (fs X w1, core X w1) = (Ok None, st2) ->
  fst (download X ns h req w) = Ok not_found /\
  core X (snd (download X ns h req w)) = snd st2.
Proof.
  intros Hcm Hwarm.
  rewrite (download_run h req w w1 cm None st2 Hcm Hwarm).
  split; reflexivity.
Qed.

(** C1, as the code has it: for a download request whose hash
    resolves to a file [cm.warm_up] names, the response depends on
    the [key] parameter of the request.  With a key, the body is the
    finite sequence of chunks that [decrypt_generator] yields for
    the stored file under that key, in order; it is the plaintext
    when the stored file is the encryption of the plaintext under
    that key and the cipher inverts.  Without a key, the body is the
    stored file as it is. *)
Theorem download_decrypts_when_given_key (h : string) (req : request)
    (w w1 : world X) (cm : CM X) (path : string) (content : bytes)
    (st2 : gmap string bytes * Core X) :
  get_cloud_manager X ns w = (Ok cm, w1) ->
  cm_warm_up X cm h (fs X w1, core X w1) = (Ok (Some path), st2) ->
  fst st2 !! path = Some content ->
  fst (download X ns h req w)
  = Ok (match req_args req !! "key" with
        | Some key =>
            {| status_code := 200;
               resp_body :=
                 BodyStream
                   (Chunks (decrypt_generator_chunks X key content));
               mimetype := "application/octet-stream";
               headers := [("Content-Disposition",
                            "attachment;filename=" +:+ basename path)] |}
        | None =>
            {| status_code := 200;
               resp_body := BodyFile path content;
               mimetype := "";
               headers := [("Content-Disposition",
                            "attachment; filename=" +:+ basename path)] |}
        end) /\
  forall key plain,
    req_args req !! "key" = Some key ->
    content = encrypt X key plain ->
    concat (decrypt_generator_chunks X key (encrypt X key plain)) = plain ->
    exists resp cs,
      fst (download X ns h req w) = Ok resp /\
      resp_body resp = BodyStream (Chunks cs) /\
      concat cs = plain.
Proof.
  intros Hcm Hwarm Hfile.
  rewrite (download_run h req w w1 cm (Some path) st2 Hcm Hwarm).
  split.
  - destruct (req_args req !! "key") as [key|].
    + unfold decrypt_generator. proj. rewrite Hfile. reflexivity.
    + unfold send_file. run. rewrite Hfile. reflexivity.
  - intros key plain Hkey -> Hinv. rewrite Hkey.
    unfold decrypt_generator. proj. rewrite Hfile.
    eexists. eexists. split; [reflexivity|]. split; [reflexivity|].
    exact Hinv.
Qed.

End Download.

Lemma download_decrypts_when_given_key_witness :
  fst (download deployment.toy deployment.ns "sha-mjqqt"
         (deployment.download_request (Some "hello"))
         deployment.after_upload)
  = Ok {| status_code := 200;
          resp_body :=
            BodyStream
              (Chunks (decrypt_generator_chunks deployment.toy "hello"
                         (deployment.toy_encrypt "hello" deployment.hello)));
          mimetype := "application/octet-stream";
          headers := [("Content-Disposition",
                       "attachment;filename=" +:+ basename "./uploads/sha-mjqqt")] |}
  /\ concat (decrypt_generator_chunks deployment.toy "hello"
               (deployment.toy_encrypt "hello" deployment.hello))
      = deployment.hello.
Proof.
  pose (w1 := snd (get_cloud_manager deployment.toy deployment.ns
                     deployment.after_upload)).
  pose (st2 := snd (cm_warm_up deployment.toy deployment.cfg0 "sha-mjqqt"
                      (fs deployment.toy w1, core deployment.toy w1))).
  destruct (download_decrypts_when_given_key deployment.toy deployment.ns
              "sha-mjqqt" (deployment.download_request (Some "hello"))
              deployment.after_upload w1 deployment.cfg0
              "./uploads/sha-mjqqt"
              (deployment.toy_encrypt "hello" deployment.hello) st2)
    as [Hresp _].
  - apply injective_projections; [vm_compute|]; reflexivity.
  - vm_compute. reflexivity.
  - vm_compute. reflexivity.
  - split; [exact Hresp | vm_compute; reflexivity].
Defined.

(** C1, as the claim has it, fails on a request without a key: after
    the upload of [hello], a download of its hash with no [key]
    parameter answers the stored file, which is the encryption and not
    the plaintext. *)
Lemma download_without_key_serves_stored_file :
  fst (download deployment.toy deployment.ns "sha-mjqqt"
         (deployment.download_request None) deployment.after_upload)
  = Ok {| status_code := 200;
          resp_body :=
            BodyFile "./uploads/sha-mjqqt"
              (deployment.toy_encrypt "hello" deployment.hello);
          mimetype := "";
          headers := [("Content-Disposition",
                       "attachment; filename=sha-mjqqt")] |}
  /\ deployment.toy_encrypt "hello" deployment.hello <> deployment.hello
  /\ fs deployment.toy deployment.after_upload !! "./uploads/sha-mjqqt"
      = Some (deployment.toy_encrypt "hello" deployment.hello).
Proof.
  split; [vm_compute; reflexivity|].
  split; [|vm_compute; reflexivity].
  vm_compute. discriminate.
Qed.

(** *** Download on the node of the specification *)

Section Warmer.

Import cloudmanager cloudmanager_facts.

Variables (provider_list : list string) (retries : nat).
Variable digest : bytes -> string.
Variable secure : string -> string.
Variable derive : bytes -> option string -> string.
Variable cipher : string -> bytes -> bytes.
Variable decipher_chunks : string -> bytes -> list bytes.
Variable ns : gmap string pyval.

Let Nd :=
  deployment.node provider_list retries digest secure derive cipher
    decipher_chunks.

(** Constructing the manager touches neither the files nor the
    node. *)
Lemma node_get_cloud_manager (w w1 : world Nd) (cfg : Config) :
  get_cloud_manager Nd ns w = (Ok cfg, w1) ->
  fs Nd w1 = fs Nd w /\ core Nd w1 = core Nd w.
Proof.
  unfold get_cloud_manager.
  destruct (g_cloud_manager Nd w) as [cm|].
  - intros [= _ <-]. split; reflexivity.
  - unfold make_cloudmanager, setting, getattr. run.
    destruct (ns !! "DATABASE_PATH") as [db|]; [|discriminate].
    destruct (ns !! "STORAGE_PATH") as [st|]; [|discriminate].
    destruct (ns !! "STORAGE_SIZE") as [sz|]; [|discriminate].
    cbn [cm_new Nd]. unfold deployment.new.
    destruct db; try discriminate; destruct st; try discriminate;
      destruct sz; try discriminate.
    unfold set_g_cloud_manager. proj.
    intros [= _ <-]. split; reflexivity.
Qed.

(** C6: for a hash with no record in the index, [warmUp] answers
    [NotFound] and leaves the node as it was, the log of network
    calls included; the download route answers 404 with the error
    'File not found', and the node is as it was after the request
    too. *)
Theorem unknown_hash_is_not_found (h : string) (req : request)
    (w w1 : world Nd) (cfg : Config) :
  get_cloud_manager Nd ns w = (Ok cfg, w1) ->
  find h (core Nd w) = None ->
  warmUp cfg h (core Nd w) = (NotFound, core Nd w) /\
  netlog (net (snd (warmUp cfg h (core Nd w))))
    = netlog (net (core Nd w)) /\
  fst (download Nd ns h req w)
    = Ok {| status_code := 404;
            resp_body := BodyJson (JObj [("error", JStr "File not found")]);
            mimetype := "application/json"; headers := [] |} /\
  core Nd (snd (download Nd ns h req w)) = core Nd w.
Proof.
  intros Hcm Hfind.
  pose proof (warmUp_unknown cfg h (core Nd w) Hfind) as Hwarm.
  split; [exact Hwarm|]. rewrite Hwarm. split; [reflexivity|].
  destruct (node_get_cloud_manager w w1 cfg Hcm) as [Hfs Hcore].
  apply (download_none Nd ns h req w w1 cfg (fs Nd w, core Nd w) Hcm).
  rewrite Hcore, Hfs.
  change (deployment.warm_up cfg h (fs Nd w, core Nd w)
          = (Ok None, (fs Nd w, core Nd w))).
  unfold deployment.warm_up. cbn [fst snd]. rewrite Hwarm. reflexivity.
Qed.


End Warmer.

Lemma unknown_hash_is_not_found_witness :
  cloudmanager.warmUp deployment.cfg0 "deadbeef"
    (core deployment.toy deployment.w0)
    = (cloudmanager.NotFound, core deployment.toy deployment.w0) /\
  fst (download deployment.toy deployment.ns "deadbeef"
         (deployment.download_request None) deployment.w0)
    = Ok {| status_code := 404;
            resp_body := BodyJson (JObj [("error", JStr "File not found")]);
            mimetype := "application/json"; headers := [] |}.
Proof.
  destruct (unknown_hash_is_not_found ["alpha"; "beta"; "gamma"] 2
              deployment.toy_digest (fun name => name) deployment.toy_key
              deployment.toy_encrypt deployment.toy_chunks deployment.ns
              "deadbeef" (deployment.download_request None) deployment.w0
              (snd (get_cloud_manager deployment.toy deployment.ns
                      deployment.w0))
              deployment.cfg0)
    as (Hwarm & _ & Hresp & _).
  - apply injective_projections; [vm_compute|]; reflexivity.
  - reflexivity.
  - split; [exact Hwarm | exact Hresp].
Defined.



End node_facts.

(** ** More on the handlers *)

Module node_extra.

Import node_facts.
Local Open Scope list_scope.

Section Managers.

Variable X : collaborators.
Variable ns : gmap string pyval.

Lemma keeps_manager_ret {A} (a : A) : keeps_manager X (ret X a).
Proof. intros w. reflexivity. Qed.

Lemma keeps_manager_bind {A B} (m : M X A) (k : A -> M X B) :
  keeps_manager X m -> (forall a, keeps_manager X (k a)) ->
  keeps_manager X (bind X m k).
Proof.
  intros Hm Hk w. unfold bind. specialize (Hm w).
  destruct (m w) as [[a|e] w1]; simpl in *; [|exact Hm].
  rewrite Hk. exact Hm.
Qed.

Lemma keeps_manager_call {A} (e : event) (op : ext (Core X) A) :
  keeps_manager X (call X e op).
Proof. intros w. unfold call. destruct (op _) as [r [f c]]. reflexivity. Qed.

Lemma keeps_manager_setting (name : string) :
  keeps_manager X (setting X ns name).
Proof. intros w. reflexivity. Qed.

Lemma keeps_manager_make_cloudmanager :
  keeps_manager X (make_cloudmanager X ns).
Proof.
  unfold make_cloudmanager.
  repeat (apply keeps_manager_bind; [apply keeps_manager_setting | intros ?]).
  apply keeps_manager_call.
Qed.

Lemma keeps_manager_get_coin : keeps_manager X (get_coin X ns).
Proof.
  intros w. unfold get_coin. destruct (g_coin X w) as [c|]; [reflexivity|].
  revert w. change (keeps_manager X
    (bind X (make_coin X ns)
       (fun c => bind X (set_g_coin X c) (fun _ => ret X c)))).
  apply keeps_manager_bind.
  - unfold make_coin.
    repeat (apply keeps_manager_bind; [apply keeps_manager_setting | intros ?]).
    apply keeps_manager_call.
  - intros c. apply keeps_manager_bind; [|intros; apply keeps_manager_ret].
    intros w. reflexivity.
Qed.

Lemma keeps_manager_os_remove (path : string) :
  keeps_manager X (os_remove X path).
Proof.
  intros w. unfold os_remove. run. destruct (fs X w !! path); reflexivity.
Qed.

Lemma keeps_manager_send_file (path name : string) :
  keeps_manager X (send_file X path name).
Proof.
  intros w. unfold send_file. run. destruct (fs X w !! path); reflexivity.
Qed.

(** X1: [get_cloud_manager()] constructs at most once per context.  When
    it answers a manager, [g] holds that manager from then on, and a
    further call answers the same one and changes nothing: no second
    construction, no call logged. *)
Theorem get_cloud_manager_caches (w w1 : world X) (cm : CM X) :
  get_cloud_manager X ns w = (Ok cm, w1) ->
  g_cloud_manager X w1 = Some cm /\
  get_cloud_manager X ns w1 = (Ok cm, w1).
Proof.
  intros Hget.
  assert (Hg : g_cloud_manager X w1 = Some cm).
  { revert Hget. unfold get_cloud_manager.
    destruct (g_cloud_manager X w) as [c|] eqn:Hgw.
    - intros [= <- <-]. exact Hgw.
    - unfold bind. destruct (make_cloudmanager X ns w) as [[c|e] w2];
        [|discriminate].
      unfold set_g_cloud_manager, ret. intros [= <- <-]. reflexivity. }
  split; [exact Hg|]. unfold get_cloud_manager. rewrite Hg. reflexivity.
Qed.

(** X2: [get_cloud_manager()] raises only in a context that has no
    manager, and it then leaves the context without one: a constructor
    that failed is not remembered, and the next call constructs again. *)
Theorem get_cloud_manager_failure_leaves_none (w w1 : world X) (e : exn) :
  get_cloud_manager X ns w = (Raise e, w1) ->
  g_cloud_manager X w = None /\
  g_cloud_manager X w1 = None /\
  make_cloudmanager X ns w = (Raise e, w1).
Proof.
  unfold get_cloud_manager.
  destruct (g_cloud_manager X w) as [c|] eqn:Hgw; [discriminate|].
  unfold bind. pose proof (keeps_manager_make_cloudmanager w) as Hk.
  destruct (make_cloudmanager X ns w) as [[c|e'] w2]; [discriminate|].
  intros [= <- <-]. simpl in Hk. rewrite Hk. auto.
Qed.

(** X3: [get_coin()] constructs at most once per context, like
    [get_cloud_manager()]: when it answers a wallet client, [g] holds it
    and a further call answers the same one and changes nothing. *)
Theorem get_coin_caches (w w1 : world X) (c : Coin X) :
  get_coin X ns w = (Ok c, w1) ->
  g_coin X w1 = Some c /\ get_coin X ns w1 = (Ok c, w1).
Proof.
  intros Hget.
  assert (Hg : g_coin X w1 = Some c).
  { revert Hget. unfold get_coin.
    destruct (g_coin X w) as [c0|] eqn:Hgw.
    - intros [= <- <-]. exact Hgw.
    - unfold bind. destruct (make_coin X ns w) as [[c0|e] w2];
        [|discriminate].
      unfold set_g_coin, ret. intros [= <- <-]. reflexivity. }
  split; [exact Hg|]. unfold get_coin. rewrite Hg. reflexivity.
Qed.

End Managers.

Ltac pair_eq :=
  match goal with
  | |- ?l = (?a, ?b) =>
      transitivity (fst l, snd l); [apply surjective_pairing|];
      apply (f_equal (fun x => (x, b))); vm_compute; reflexivity
  end.

Lemma get_cloud_manager_caches_witness :
  g_cloud_manager deployment.toy
    (snd (get_cloud_manager deployment.toy deployment.ns deployment.w0))
    = Some deployment.cfg0.
Proof.
  apply (get_cloud_manager_caches deployment.toy deployment.ns deployment.w0
           (snd (get_cloud_manager deployment.toy deployment.ns
                   deployment.w0))
           deployment.cfg0).
  pair_eq.
Defined.

Lemma get_cloud_manager_failure_leaves_none_witness :
  g_cloud_manager deployment.toy deployment.w0 = None /\
  g_cloud_manager deployment.toy
    (snd (get_cloud_manager deployment.toy (settings.namespace None)
            deployment.w0)) = None.
Proof.
  destruct (get_cloud_manager_failure_leaves_none deployment.toy
              (settings.namespace None) deployment.w0
              (snd (get_cloud_manager deployment.toy (settings.namespace None)
                      deployment.w0))
              (AttributeError "settings" "DATABASE_PATH"))
    as (H1 & H2 & _).
  - pair_eq.
  - split; [exact H1 | exact H2].
Defined.

Lemma get_coin_caches_witness :
  g_coin deployment.toy
    (snd (get_coin deployment.toy deployment.ns deployment.w0)) = Some tt.
Proof.
  apply (get_coin_caches deployment.toy deployment.ns deployment.w0
           (snd (get_coin deployment.toy deployment.ns deployment.w0)) tt).
  pair_eq.
Defined.

(** *** Upload and its staging file *)

Section Staging.

Variable X : collaborators.
Variable ns : gmap string pyval.




(** The [try] body of [upload] up to the answer of [cm.upload]. *)
Lemma upload_respond_raises (temp key : string) (w w1 : world X)
    (cm : CM X) (e : exn) (st2 : gmap string bytes * Core X) :
  get_cloud_manager X ns w = (Ok cm, w1) ->
  cm_upload X cm temp (fs X w1, core X w1) = (Raise e, st2) ->
  upload_respond X ns temp key w
  = (Raise e,
     {| g_cloud_manager := g_cloud_manager X w1; g_coin := g_coin X w1;
        fs := fst st2; core := snd st2;
        trace := trace X w1 ++ [EvCMCall "upload" (Some temp)] |}).
Proof.
  intros Hcm Hup. unfold upload_respond. unfold bind at 1. rewrite Hcm.
  unfold bind at 1. unfold call. rewrite Hup. destruct st2. reflexivity.
Qed.

(** X5: when [cm.upload] raises and the staging file is still there, the
    handler removes the staging file and raises that same exception:
    the [finally] clause runs and does not hide the failure. *)
Theorem upload_failure_propagates (req : request) (w w1 : world X)
    (name : string) (content : bytes) (cm : CM X) (e : exn)
    (st2 : gmap string bytes * Core X) :
  req_file req = Some (name, content) ->
  get_cloud_manager X ns
    (staged X (path_join TEMP_FOLDER (secure_filename X name)) content w)
    = (Ok cm, w1) ->
  cm_upload X cm (path_join TEMP_FOLDER (secure_filename X name))
    (fs X w1, core X w1) = (Raise e, st2) ->
  is_Some (fst st2 !! path_join TEMP_FOLDER (secure_filename X name)) ->
  fst (upload X ns req w) = Raise e /\
  fs X (snd (upload X ns req w))
    = delete (path_join TEMP_FOLDER (secure_filename X name)) (fst st2) /\
  exists before,
    trace X (snd (upload X ns req w))
    = before ++ [EvCMCall "upload"
                   (Some (path_join TEMP_FOLDER (secure_filename X name)));
                 EvRemove (path_join TEMP_FOLDER (secure_filename X name))].
Proof.
  intros Hf Hcm Hup Hthere.
  rewrite (upload_unfold X ns req w name content Hf).
  unfold try_finally.
  rewrite (upload_respond_raises _ _ _ w1 cm e st2 Hcm Hup).
  rewrite os_remove_present by exact Hthere. proj.
  split; [reflexivity|]. split; [reflexivity|].
  exists (trace X w1). rewrite <- app_assoc. reflexivity.
Qed.

(** X6: when [cm.upload] returns but the staging file is gone by then
    (the cloud manager moved or deleted it), [os.remove] in the
    [finally] clause raises and the handler gives no response, whatever
    the result of the upload was. *)
Theorem upload_lost_staging_file_raises (req : request) (w w1 : world X)
    (name : string) (content : bytes) (cm : CM X) (result : pyval)
    (st2 : gmap string bytes * Core X) :
  req_file req = Some (name, content) ->
  get_cloud_manager X ns
    (staged X (path_join TEMP_FOLDER (secure_filename X name)) content w)
    = (Ok cm, w1) ->
  cm_upload X cm (path_join TEMP_FOLDER (secure_filename X name))
    (fs X w1, core X w1) = (Ok result, st2) ->
  fst st2 !! path_join TEMP_FOLDER (secure_filename X name) = None ->
  fst (upload X ns req w)
  = Raise (OSError (path_join TEMP_FOLDER (secure_filename X name))).
Proof.
  intros Hf Hcm Hup Hgone.
  rewrite (upload_unfold X ns req w name content Hf).
  unfold try_finally, upload_respond. unfold bind at 1. rewrite Hcm.
  unfold bind at 1. unfold call at 1. rewrite Hup.
  destruct st2 as [fs2 core2]. unfold ret. proj.
  unfold os_remove. run. simpl in Hgone. rewrite Hgone. reflexivity.
Qed.

End Staging.


Lemma upload_failure_propagates_witness :
  fst (upload deployment.failing deployment.ns deployment.upload_request
         (fresh_context deployment.failing ∅
            (cloudmanager.init (deployment.network ∅))))
  = Raise (ExternalError "upload").
Proof.
  pose (w := fresh_context deployment.failing ∅
               (cloudmanager.init (deployment.network ∅))).
  pose (w1 := snd (get_cloud_manager deployment.failing deployment.ns
                     (staged deployment.failing "tmp/hello.txt"
                        deployment.hello w))).
  apply (upload_failure_propagates deployment.failing deployment.ns
           deployment.upload_request w w1 "hello.txt" deployment.hello
           deployment.cfg0 (ExternalError "upload")
           (fs deployment.failing w1, core deployment.failing w1)).
  - reflexivity.
  - pair_eq.
  - reflexivity.
  - vm_compute. eexists. reflexivity.
Defined.

Lemma upload_lost_staging_file_raises_witness :
  fst (upload deployment.moving deployment.ns deployment.upload_request
         (fresh_context deployment.moving ∅
            (cloudmanager.init (deployment.network ∅))))
  = Raise (OSError "tmp/hello.txt").
Proof.
  pose (w := fresh_context deployment.moving ∅
               (cloudmanager.init (deployment.network ∅))).
  pose (w1 := snd (get_cloud_manager deployment.moving deployment.ns
                     (staged deployment.moving "tmp/hello.txt"
                        deployment.hello w))).
  apply (upload_lost_staging_file_raises deployment.moving deployment.ns
           deployment.upload_request w w1 "hello.txt" deployment.hello
           deployment.cfg0 (PyStr "sha-mjqqt")
           (snd (cm_upload deployment.moving deployment.cfg0 "tmp/hello.txt"
                   (fs deployment.moving w1, core deployment.moving w1)))).
  - reflexivity.
  - pair_eq.
  - vm_compute. reflexivity.
  - vm_compute. reflexivity.
Defined.

(** *** Find and download *)

Section Lookup.

Variable X : collaborators.
Variable ns : gmap string pyval.

(** X7: the find route answers 404 with the error 'File not found' when
    [cm.info] returns [None] and only then; otherwise it answers 200 with
    the information as JSON. *)
Theorem find_response (h : string) (w w1 : world X) (cm : CM X)
    (info : option pyval) (st2 : gmap string bytes * Core X) :
  get_cloud_manager X ns w = (Ok cm, w1) ->
  cm_info X cm h (fs X w1, core X w1) = (Ok info, st2) ->
  fst (find X ns h w)
  = Ok (match info with
        | None => json_response (JObj [("error", JStr "File not found")]) 404
        | Some i => json_response (to_json i) 200
        end) /\
  (forall resp, fst (find X ns h w) = Ok resp ->
                (status_code resp = 404%Z <-> info = None)).
Proof.
  intros Hcm Hinfo.
  assert (Hrun : fst (find X ns h w)
                 = Ok (match info with
                       | None => json_response
                                   (JObj [("error", JStr "File not found")])
                                   404
                       | Some i => json_response (to_json i) 200
                       end)).
  { unfold find. unfold bind at 1. rewrite Hcm. unfold bind at 1.
    unfold call. rewrite Hinfo. destruct st2 as [f2 c2].
    destruct info; reflexivity. }
  split; [exact Hrun|]. intros resp Hresp. rewrite Hrun in Hresp.
  injection Hresp as <-. destruct info; simpl; split; congruence.
Qed.

(** X8: when [cm.warm_up] names a path at which no file is, a download
    without a key raises from [send_file], and a download with a key
    answers 200 all the same: the generator has not run when the handler
    returns, and the missing file shows only when the body is read. *)
Theorem download_missing_file (h : string) (req : request)
    (w w1 : world X) (cm : CM X) (path : string)
    (st2 : gmap string bytes * Core X) :
  get_cloud_manager X ns w = (Ok cm, w1) ->
  cm_warm_up X cm h (fs X w1, core X w1) = (Ok (Some path), st2) ->
  fst st2 !! path = None ->
  fst (download X ns h req w)
  = match req_args req !! "key" with
    | None => Raise (IOError path)
    | Some key =>
        Ok {| status_code := 200;
              resp_body := BodyStream (Broken (IOError path));
              mimetype := "application/octet-stream";
              headers := [("Content-Disposition",
                           "attachment;filename=" +:+ basename path)] |}
    end.
Proof.
  intros Hcm Hwarm Hgone.
  rewrite (download_run X ns h req w w1 cm (Some path) st2 Hcm Hwarm).
  destruct (req_args req !! "key") as [key|].
  - unfold decrypt_generator. proj. rewrite Hgone. reflexivity.
  - unfold send_file. run. rewrite Hgone. reflexivity.
Qed.

End Lookup.

Lemma find_response_witness :
  fst (find deployment.toy deployment.ns "deadbeef" deployment.w0)
  = Ok (json_response (JObj [("error", JStr "File not found")]) 404).
Proof.
  apply (find_response deployment.toy deployment.ns "deadbeef" deployment.w0
           (snd (get_cloud_manager deployment.toy deployment.ns
                   deployment.w0))
           deployment.cfg0 None
           (fs deployment.toy deployment.w0,
            core deployment.toy deployment.w0)).
  - pair_eq.
  - reflexivity.
Defined.

Lemma download_missing_file_witness :
  fst (download deployment.toy deployment.ns "sha-mjqqt"
         (deployment.download_request (Some "hello"))
         (fresh_context deployment.toy ∅ deployment.cache_lost))
  = Ok {| status_code := 200;
          resp_body := BodyStream (Broken (IOError "./uploads/sha-mjqqt"));
          mimetype := "application/octet-stream";
          headers := [("Content-Disposition",
                       "attachment;filename="
                         +:+ basename "./uploads/sha-mjqqt")] |}.
Proof.
  pose (w := fresh_context deployment.toy ∅ deployment.cache_lost).
  pose (w1 := snd (get_cloud_manager deployment.toy deployment.ns w)).
  apply (download_missing_file deployment.toy deployment.ns "sha-mjqqt"
           (deployment.download_request (Some "hello")) w w1 deployment.cfg0
           "./uploads/sha-mjqqt"
           (snd (cm_warm_up deployment.toy deployment.cfg0 "sha-mjqqt"
                   (fs deployment.toy w1, core deployment.toy w1)))).
  - pair_eq.
  - vm_compute. reflexivity.
  - vm_compute. reflexivity.
Defined.

(** *** One manager per request *)

Section Requests.

Variable X : collaborators.
Variable ns : gmap string pyval.

Lemma get_cloud_manager_sets (w w1 : world X) (cm : CM X) :
  get_cloud_manager X ns w = (Ok cm, w1) -> g_cloud_manager X w1 = Some cm.
Proof.
  unfold get_cloud_manager.
  destruct (g_cloud_manager X w) as [c|] eqn:Hgw.
  - intros [= <- <-]. exact Hgw.
  - unfold bind. destruct (make_cloudmanager X ns w) as [[c|e] w2];
      [|discriminate].
    unfold set_g_cloud_manager, ret. intros [= <- <-]. reflexivity.
Qed.

(** A handler that opens with [cm = get_cloud_manager()] and answers. *)
Lemma answered_with_manager {A} (k : CM X -> M X A) (w w' : world X)
    (a : A) :
  (forall cm, keeps_manager X (k cm)) ->
  bind X (get_cloud_manager X ns) k w = (Ok a, w') ->
  is_Some (g_cloud_manager X w').
Proof.
  intros Hk. unfold bind.
  destruct (get_cloud_manager X ns w) as [[cm|e] w1] eqn:Hget;
    [|discriminate].
  intros Hrun. pose proof (Hk cm w1) as Hkeep. rewrite Hrun in Hkeep.
  simpl in Hkeep. rewrite Hkeep, (get_cloud_manager_sets w w1 cm Hget).
  eexists. reflexivity.
Qed.

Ltac keeps :=
  repeat first
    [ apply keeps_manager_ret
    | apply keeps_manager_call
    | apply keeps_manager_setting
    | apply keeps_manager_get_coin
    | apply keeps_manager_send_file
    | apply keeps_manager_os_remove
    | apply keeps_manager_bind; [|intros ?] ].

Lemma dispatch_answered_with_manager (r : route) (req : request)
    (w w' : world X) (resp : response) :
  constructs_cloud_manager r = true ->
  dispatch X ns r req w = (Ok resp, w') ->
  is_Some (g_cloud_manager X w').
Proof.
  intros Hr. destruct r; try discriminate Hr; cbn [dispatch].
  - (* upload *)
    destruct (req_file req) as [[name content]|] eqn:Hf.
    + rewrite (upload_unfold X ns req w name content Hf).
      unfold try_finally.
      destruct (upload_respond X ns _ _ _) as [res w1] eqn:Hbody.
      pose proof (keeps_manager_os_remove X
                    (path_join TEMP_FOLDER (secure_filename X name)) w1)
        as Hkeep.
      destruct (os_remove X _ w1) as [[u|e] w2]; [|discriminate].
      intros [= -> <-]. simpl in Hkeep. rewrite Hkeep.
      unfold upload_respond in Hbody.
      apply (answered_with_manager _ _ _ _) in Hbody; [exact Hbody|].
      intros cm. keeps.
    + rewrite upload_without_file by exact Hf. discriminate.
  - (* download *)
    unfold download. apply answered_with_manager. intros cm.
    apply keeps_manager_bind; [apply keeps_manager_call|].
    intros [path|]; [|apply keeps_manager_ret].
    destruct (req_args req !! "key"); [|apply keeps_manager_send_file].
    intros w0. reflexivity.
  - (* find *)
    unfold find. apply answered_with_manager. intros cm.
    apply keeps_manager_bind; [apply keeps_manager_call|].
    intros [i|]; apply keeps_manager_ret.
  - unfold status, cm_read. apply answered_with_manager. intros cm. keeps.
  - unfold bandwidth_usage, cm_read. apply answered_with_manager.
    intros cm. keeps.
  - unfold bandwidth_limits. apply answered_with_manager. intros cm. keeps.
  - unfold disk_usage, cm_read. apply answered_with_manager.
    intros cm. keeps.
  - unfold storage_capacity, cm_read. apply answered_with_manager.
    intros cm. keeps.
  - unfold status_sync, cm_read. apply answered_with_manager.
    intros cm. keeps.
Qed.

(** X9: one manager per request.  When a handler that calls
    [get_cloud_manager()] answers, [g] holds a manager, and the teardown
    closes that one: it constructs nothing, and the only call it adds to
    the log is the close. *)
Theorem serve_closes_the_handlers_manager (r : route) (req : request)
    (f : gmap string bytes) (c : Core X) (resp : response) (w' : world X) :
  constructs_cloud_manager r = true ->
  dispatch X ns r req (fresh_context X f c) = (Ok resp, w') ->
  exists cm,
    g_cloud_manager X w' = Some cm /\
    serve X ns r req f c
    = (Ok resp, fst (cm_close X cm (fs X w', core X w')),
       {| g_cloud_manager := Some cm; g_coin := g_coin X w';
          fs := fst (snd (cm_close X cm (fs X w', core X w')));
          core := snd (snd (cm_close X cm (fs X w', core X w')));
          trace := trace X w' ++ [EvCMCall "close" None] |}).
Proof.
  intros Hr Hrun.
  destruct (dispatch_answered_with_manager r req _ w' resp Hr Hrun)
    as [cm Hcm].
  exists cm. split; [exact Hcm|].
  unfold serve. rewrite Hrun.
  unfold close_connection, get_cloud_manager. unfold bind at 1.
  rewrite Hcm. unfold ret, call.
  destruct (cm_close X cm (fs X w', core X w')) as [res [f2 c2]].
  rewrite Hcm. reflexivity.
Qed.

End Requests.

Lemma serve_closes_the_handlers_manager_witness :
  exists cm,
    g_cloud_manager deployment.toy
      (snd (dispatch deployment.toy deployment.ns RUpload
              deployment.upload_request
              (fresh_context deployment.toy ∅
                 (cloudmanager.init (deployment.network ∅)))))
    = Some cm.
Proof.
  pose (out := dispatch deployment.toy deployment.ns RUpload
                 deployment.upload_request
                 (fresh_context deployment.toy ∅
                    (cloudmanager.init (deployment.network ∅)))).
  destruct (serve_closes_the_handlers_manager deployment.toy deployment.ns
              RUpload deployment.upload_request ∅
              (cloudmanager.init (deployment.network ∅))
              (set_header "Access-Control-Allow-Credentials" "true"
                 (set_header "Access-Control-Allow-Origin"
                    "http://localhost:8000"
                    (json_response
                       (JObj [("filehash", JStr "sha-mjqqt");
                              ("key", JStr "hello")]) 201)))
              (snd out))
    as (cm & Hcm & _).
  - reflexivity.
  - pair_eq.
  - exists cm. exact Hcm.
Defined.

(** *** The settings module *)

Lemma namespace_lookup (local : gmap string pyval) (name : string) :
  settings.namespace (Some local) !! name
  = match local !! name with
    | Some v => Some v
    | None => settings.shipped !! name
    end.
Proof.
  unfold settings.namespace. rewrite lookup_union.
  destruct (local !! name), (settings.shipped !! name); reflexivity.
Qed.

Lemma namespace_keeps_shipped (local : option (gmap string pyval))
    (name : string) :
  is_Some (settings.shipped !! name) ->
  is_Some (settings.namespace local !! name).
Proof.
  intros Hs. destruct local as [local|]; [|exact Hs].
  rewrite namespace_lookup.
  destruct (local !! name); [eexists; reflexivity | exact Hs].
Qed.


Section Construction.

Variable X : collaborators.


(** X13: [make_coin] misses no setting: the shipped module binds the
    three it reads, so whether or not a [local_settings] exists the
    lookups succeed and the wallet client is constructed with them; as
    shipped, with the URL, user and password of [settings.py]. *)
Theorem make_coin_reaches_the_constructor
    (local : option (gmap string pyval)) (w : world X) :
  (exists url user password,
     make_coin X (settings.namespace local) w
     = call X (EvCoinNew url user password)
         (coin_new X url user password) w) /\
  make_coin X (settings.namespace None) w
  = call X (EvCoinNew (PyStr "http://127.0.0.1:11777") (PyStr "datacoinrpc")
              (PyStr "secretish-password"))
      (coin_new X (PyStr "http://127.0.0.1:11777") (PyStr "datacoinrpc")
         (PyStr "secretish-password")) w.
Proof.
  split; [|reflexivity].
  destruct (namespace_keeps_shipped local "DATACOIN_URL")
    as [url H1]; [eexists; reflexivity|].
  destruct (namespace_keeps_shipped local "DATACOIN_USERNAME")
    as [user H2]; [eexists; reflexivity|].
  destruct (namespace_keeps_shipped local "DATACOIN_PASSWORD")
    as [password H3]; [eexists; reflexivity|].
  exists url, user, password.
  unfold make_coin, setting, getattr. rewrite H1, H2, H3. reflexivity.
Qed.

End Construction.


(** *** The settings as shipped, at the teardown *)

Section ShippedTeardown.

Variable X : collaborators.

Let shipped := settings.namespace None.

Lemma coin_routes_keep_manager (w : world X) :
  g_cloud_manager X (snd (coin_balance_route X shipped w))
    = g_cloud_manager X w /\
  g_cloud_manager X (snd (coin_address_route X shipped w))
    = g_cloud_manager X w.
Proof.
  split.
  - revert w. change (keeps_manager X (coin_balance_route X shipped)).
    unfold coin_balance_route.
    apply keeps_manager_bind; [apply keeps_manager_get_coin | intros c].
    apply keeps_manager_bind; [apply keeps_manager_call | intros b].
    apply keeps_manager_ret.
  - revert w. change (keeps_manager X (coin_address_route X shipped)).
    unfold coin_address_route.
    apply keeps_manager_bind; [apply keeps_manager_get_coin | intros c].
    apply keeps_manager_bind; [apply keeps_manager_call | intros b].
    apply keeps_manager_ret.
Qed.

Lemma dispatch_shipped_no_manager (r : route) (req : request) (w : world X) :
  g_cloud_manager X w = None ->
  g_cloud_manager X (snd (dispatch X shipped r req w)) = None.
Proof.
  intros Hg.
  destruct r; cbn [dispatch];
    try (unfold download, find, status, bandwidth_usage, bandwidth_limits,
           disk_usage, storage_capacity, status_sync;
         rewrite opens_with_cloud_manager by exact Hg; exact Hg).
  - destruct (req_file req) as [[name content]|] eqn:Hf.
    + apply (upload_shipped X req w name content Hf Hg).
    + rewrite upload_without_file by exact Hf. exact Hg.
  - exact Hg.
  - rewrite (proj1 (coin_routes_keep_manager w)). exact Hg.
  - rewrite (proj2 (coin_routes_keep_manager w)). exact Hg.
Qed.

(** X10: with the settings as shipped and no [local_settings], the
    teardown raises after every request of every route, the routes that
    never ask for a cloud manager included: no handler can leave a
    manager on [g], so the teardown tries to construct one and fails on
    [settings.DATABASE_PATH]. *)
Theorem shipped_teardown_always_raises (r : route) (req : request)
    (f : gmap string bytes) (c : Core X) :
  snd (fst (serve X shipped r req f c))
  = Raise (AttributeError "settings" "DATABASE_PATH").
Proof.
  unfold serve.
  pose proof (dispatch_shipped_no_manager r req (fresh_context X f c)
                eq_refl) as Hg.
  destruct (dispatch X shipped r req (fresh_context X f c)) as [res w].
  simpl in Hg. unfold close_connection.
  rewrite opens_with_cloud_manager by exact Hg. reflexivity.
Qed.

End ShippedTeardown.

(** *** Upload, then download *)

Section RoundTrip.


Variables (provider_list : list string) (retries : nat).
Variable digest : bytes -> string.
Variable secure : string -> string.
Variable derive : bytes -> option string -> string.
Variable cipher : string -> bytes -> bytes.
Variable decipher_chunks : string -> bytes -> list bytes.
Variable ns : gmap string pyval.

Let Nd :=
  deployment.node provider_list retries digest secure derive cipher
    decipher_chunks.

(** In a context without a manager, the manager constructed depends on
    the settings alone. *)
Lemma node_constructs_alike (w w1 v : world Nd) (cfg : cloudmanager.Config) :
  g_cloud_manager Nd w = None -> g_cloud_manager Nd v = None ->
  get_cloud_manager Nd ns w = (Ok cfg, w1) ->
  exists v1, get_cloud_manager Nd ns v = (Ok cfg, v1) /\
             fs Nd v1 = fs Nd v /\ core Nd v1 = core Nd v.
Proof.
  intros Hw Hv. unfold get_cloud_manager. rewrite Hw, Hv.
  unfold make_cloudmanager, setting, getattr. run.
  destruct (ns !! "DATABASE_PATH") as [db|]; [|discriminate].
  destruct (ns !! "STORAGE_PATH") as [st|]; [|discriminate].
  destruct (ns !! "STORAGE_SIZE") as [sz|]; [|discriminate].
  change (cm_new Nd db st sz) with (deployment.new provider_list retries db st sz).
  unfold deployment.new.
  destruct db; try discriminate; destruct st; try discriminate;
    destruct sz; try discriminate.
  unfold set_g_cloud_manager. proj. intros [= <- _].
  eexists. split; [reflexivity|]. split; reflexivity.
Qed.

Lemma os_remove_core (X : collaborators) (path : string) (w : world X) :
  core X (snd (os_remove X path w)) = core X w.
Proof.
  unfold os_remove. run. destruct (fs X w !! path); reflexivity.
Qed.

(** What an upload answered 201 has done on the node. *)
Lemma upload_answered_201 (req : request) (name : string)
    (content : bytes) (f : gmap string bytes) (s : cloudmanager.Node)
    (resp : response) :
  req_file req = Some (name, content) ->
  fst (upload Nd ns req (fresh_context Nd f s)) = Ok resp ->
  status_code resp = 201%Z ->
  exists cfg w1 s',
    get_cloud_manager Nd ns
      (staged Nd (path_join TEMP_FOLDER (secure_filename Nd name)) content
         (fresh_context Nd f s)) = (Ok cfg, w1) /\
    cloudmanager.upload digest cfg (cipher (derive content None) content) s
      = ((digest (cipher (derive content None) content),
          cloudmanager.Stored), s') /\
    core Nd (snd (upload Nd ns req (fresh_context Nd f s))) = s' /\
    resp_body resp
      = BodyJson (JObj [("filehash",
                         JStr (digest (cipher (derive content None) content)));
                        ("key", JStr (derive content None))]).
Proof.
  intros Hf.
  set (k := derive content None). set (data := cipher k content).
  destruct (upload Nd ns req (fresh_context Nd f s)) as [res wf] eqn:Hrun.
  cbn [fst snd]. intros -> H201.
  rewrite (upload_unfold Nd ns req _ name content Hf) in Hrun.
  set (temp := path_join TEMP_FOLDER (secure_filename Nd name)) in *.
  unfold staged in *. rewrite stage_run in *. unfold fresh_context in *.
  cbn [g_cloud_manager g_coin fs core trace fst snd] in *.
  change (key_from_file Nd content None) with k in *.
  change (encrypt Nd k content) with data in *.
  set (w0 := {| g_cloud_manager := _ |}) in *.
  unfold try_finally, upload_respond in Hrun. unfold bind at 1 in Hrun.
  destruct (get_cloud_manager Nd ns w0) as [[cfg|e] w1] eqn:Hget.
  2:{ destruct (os_remove Nd temp w1) as [[u|e'] w2]; discriminate. }
  destruct (node_get_cloud_manager provider_list retries digest secure derive
              cipher decipher_chunks ns w0 w1 cfg Hget) as [Hfs Hcore].
  fold Nd in Hfs, Hcore.
  unfold bind at 1 in Hrun. unfold call at 1 in Hrun.
  change (cm_upload Nd cfg temp) with (deployment.upload_file digest cfg temp)
    in Hrun.
  unfold deployment.upload_file in Hrun. cbn [fst snd] in Hrun.
  rewrite Hfs, Hcore in Hrun. subst w0.
  cbn [g_cloud_manager g_coin fs core trace fst snd] in Hrun.
  rewrite lookup_insert_eq in Hrun.
  pose proof (cloudmanager_facts.upload_stored digest cfg data s) as Hst.
  destruct (cloudmanager.upload digest cfg data s) as [[h out] s'] eqn:Hup.
  destruct out.
  - destruct (Hst s' h eq_refl) as [-> _]. unfold ret in Hrun.
    match type of Hrun with context [os_remove Nd temp ?x] =>
      pose proof (os_remove_core Nd temp x) as Hrm;
      destruct (os_remove Nd temp x) as [[u|e] w2]
    end; [|discriminate].
    cbn [fst snd core] in Hrm. injection Hrun as <- <-.
    exists cfg, w1, s'. split; [reflexivity|]. split; [exact Hup|].
    split; [exact Hrm|].
    simpl in H201 |- *.
    destruct (String.eqb (digest data) ""); simpl in H201 |- *;
      [discriminate | reflexivity].
  - unfold ret in Hrun.
    match type of Hrun with context [os_remove Nd temp ?x] =>
      destruct (os_remove Nd temp x) as [[u|e] w2]
    end; [|discriminate].
    injection Hrun as <- <-. simpl in H201. discriminate.
Qed.

(** X14: upload and download compose, on the node of the specification.
    When an upload request is answered 201, the response carries the
    hash of the encrypted file and the key derived from the content; a
    later download of that hash with that key answers 200 with the
    chunks that decrypt, under the key, the encryption of the uploaded
    content under the key. *)
Theorem upload_then_download_round_trip (req : request) (name : string)
    (content : bytes) (f : gmap string bytes) (s : cloudmanager.Node)
    (resp : response) :
  req_file req = Some (name, content) ->
  fst (upload Nd ns req (fresh_context Nd f s)) = Ok resp ->
  status_code resp = 201%Z ->
  resp_body resp
    = BodyJson (JObj [("filehash",
                       JStr (digest (cipher (derive content None) content)));
                      ("key", JStr (derive content None))]) /\
  forall req2,
    req_args req2 !! "key" = Some (derive content None) ->
    exists path,
      fst (download Nd ns (digest (cipher (derive content None) content)) req2
             (fresh_context Nd
                (fs Nd (snd (upload Nd ns req (fresh_context Nd f s))))
                (core Nd (snd (upload Nd ns req (fresh_context Nd f s))))))
      = Ok {| status_code := 200;
              resp_body :=
                BodyStream
                  (Chunks (decipher_chunks (derive content None)
                             (cipher (derive content None) content)));
              mimetype := "application/octet-stream";
              headers := [("Content-Disposition",
                           "attachment;filename=" +:+ basename path)] |}.
Proof.
  intros Hf Hresp H201.
  destruct (upload_answered_201 req name content f s resp Hf Hresp H201)
    as (cfg & w1 & s' & Hget & Hup & Hcore & Hbody).
  split; [exact Hbody|]. intros req2 Hkey.
  set (k := derive content None) in *. set (data := cipher k content) in *.
  set (h := digest data) in *.
  rewrite Hcore.
  set (f' := fs Nd (snd (upload Nd ns req (fresh_context Nd f s)))).
  assert (Hg : g_cloud_manager Nd
                 (staged Nd (path_join TEMP_FOLDER (secure_filename Nd name))
                    content (fresh_context Nd f s)) = None).
  { unfold staged. rewrite stage_run. reflexivity. }
  destruct (node_constructs_alike _ w1 (fresh_context Nd f' s') cfg
              Hg eq_refl Hget) as (v1 & Hget2 & Hfs2 & Hcore2).
  apply cloudmanager_facts.upload_stored in Hup
    as (_ & Hentry & r & Hr & Hc).
  exists (cloudmanager.local_path cfg h).
  assert (Hwarm : cm_warm_up Nd cfg h (fs Nd v1, core Nd v1)
                  = (Ok (Some (cloudmanager.local_path cfg h)),
                     (<[cloudmanager.local_path cfg h := data]> f',
                      cloudmanager.tick (cloudmanager.touchAccess h s')))).
  { rewrite Hfs2, Hcore2.
    change (cm_warm_up Nd cfg h) with (deployment.warm_up cfg h).
    unfold deployment.warm_up, cloudmanager.warmUp, cloudmanager.find.
    cbn [fst snd fresh_context fs core]. rewrite Hr, Hc.
    unfold cloudmanager.get. simpl. rewrite Hentry. reflexivity. }
  rewrite (download_run Nd ns h req2 _ v1 cfg _ _ Hget2 Hwarm).
  rewrite Hkey. unfold decrypt_generator. proj.
  rewrite lookup_insert_eq. reflexivity.
Qed.
End RoundTrip.

Lemma upload_then_download_round_trip_witness :
  exists path,
    fst (download deployment.toy deployment.ns "sha-mjqqt"
           (deployment.download_request (Some "hello"))
           (fresh_context deployment.toy
              (fs deployment.toy
                 (snd (upload deployment.toy deployment.ns
                         deployment.upload_request deployment.w0)))
              (core deployment.toy
                 (snd (upload deployment.toy deployment.ns
                         deployment.upload_request deployment.w0)))))
    = Ok {| status_code := 200;
            resp_body :=
              BodyStream
                (Chunks (deployment.toy_chunks "hello"
                           (deployment.toy_encrypt "hello" deployment.hello)));
            mimetype := "application/octet-stream";
            headers := [("Content-Disposition",
                         "attachment;filename=" +:+ basename path)] |}.
Proof.
  destruct (upload_then_download_round_trip ["alpha"; "beta"; "gamma"] 2
              deployment.toy_digest (fun name => name) deployment.toy_key
              deployment.toy_encrypt deployment.toy_chunks deployment.ns
              deployment.upload_request "hello.txt" deployment.hello ∅
              (cloudmanager.init (deployment.network ∅))
              (set_header "Access-Control-Allow-Credentials" "true"
                 (set_header "Access-Control-Allow-Origin"
                    "http://localhost:8000"
                    (json_response
                       (JObj [("filehash", JStr "sha-mjqqt");
                              ("key", JStr "hello")]) 201))))
    as [_ Hdown].
  - reflexivity.
  - vm_compute. reflexivity.
  - reflexivity.
  - apply (Hdown (deployment.download_request (Some "hello"))).
    vm_compute. reflexivity.
Defined.

End node_extra.
